(** * hookd: a daemon for PEP 517 build hook requests

    A shallow embedding of [scripts/hookd/hookd.py] and the properties of its
    protocol engine: the error classes and their messages, the line decoders,
    the hook/argument registry, the cached backend resolution, the scoped
    change of working directory, and the session loop.

    Python text is modelled as [string]; an object of the interpreter that is
    only compared by identity (a module, a backend, a callable) is an
    [objref]; stateful code threads a [World] and returns a [result], so that
    a raised exception keeps the effects that happened before it. *)

From Stdlib Require Import Ascii String List Bool Arith Lia.
From stdpp Require Import base option gmap strings list pretty.
Import ListNotations.

Set Warnings "-register-all".

(** ** Text helpers (the [str] methods the source calls) *)

Definition nl : ascii := "010"%char.
Definition dquote : ascii := "034"%char.
Definition squote : ascii := "039"%char.
Definition backslash : ascii := "092"%char.

Definition str1 (c : ascii) : string := String c EmptyString.

Definition is_empty (s : string) : bool :=
  match s with EmptyString => true | String _ _ => false end.

(** [sep.join(parts)] *)
Fixpoint join (sep : string) (parts : list string) : string :=
  match parts with
  | [] => EmptyString
  | [p] => p
  | p :: rest => p +:+ sep +:+ join sep rest
  end.

(** [c in s] for a one-character [c] *)
Fixpoint contains (c : ascii) (s : string) : bool :=
  match s with
  | EmptyString => false
  | String d rest => Ascii.eqb c d || contains c rest
  end.

(** [s.rstrip(c)] for a one-character [c]: every trailing [c] is removed. *)
Fixpoint rstrip (c : ascii) (s : string) : string :=
  match s with
  | EmptyString => EmptyString
  | String d rest =>
      let r := rstrip c rest in
      if Ascii.eqb d c && is_empty r then EmptyString else String d r
  end.

(** [s.split(c)] for a one-character separator: always at least one part. *)
Fixpoint split (c : ascii) (s : string) : list string :=
  match s with
  | EmptyString => [EmptyString]
  | String d rest =>
      if Ascii.eqb d c then EmptyString :: split c rest
      else match split c rest with
           | [] => [str1 d]
           | p :: ps => String d p :: ps
           end
  end.

(** [s.rsplit(c, 1)] when [c in s]: the text before the last [c] and the
    text after it; [None] when [c] does not occur. *)
Fixpoint rsplit1 (c : ascii) (s : string) : option (string * string) :=
  match s with
  | EmptyString => None
  | String d rest =>
      match rsplit1 c rest with
      | Some (before, after) => Some (String d before, after)
      | None => if Ascii.eqb d c then Some (EmptyString, rest) else None
      end
  end.

(** [s.replace(a, b)] for one-character [a] and [b] *)
Fixpoint replace (a b : ascii) (s : string) : string :=
  match s with
  | EmptyString => EmptyString
  | String d rest => String (if Ascii.eqb d a then b else d) (replace a b rest)
  end.

(** [repr(s)] of a [str]: single quotes, unless the text holds a single quote
    and no double quote; the quote in use, the backslash and the control
    characters are escaped. This is Python's [repr] on ASCII text. Past
    ASCII the bytes are kept as they are, where Python keeps the printable
    characters and escapes the others: there the two agree only in that
    neither writes a line feed. *)
Definition hex_digit (n : nat) : ascii :=
  ascii_of_nat (if n <? 10 then 48 + n else 87 + n).

Definition repr_char (q c : ascii) : string :=
  if Ascii.eqb c backslash then String backslash (str1 backslash)
  else if Ascii.eqb c q then String backslash (str1 q)
  else if Ascii.eqb c nl then String backslash "n"
  else if Ascii.eqb c "013"%char then String backslash "r"
  else if Ascii.eqb c "009"%char then String backslash "t"
  else
    let n := nat_of_ascii c in
    if (n <? 32) || (n =? 127) then
      String backslash (String "x" (String (hex_digit (n / 16)) (str1 (hex_digit (n mod 16)))))
    else str1 c.

Fixpoint repr_body (q : ascii) (s : string) : string :=
  match s with
  | EmptyString => EmptyString
  | String c rest => repr_char q c +:+ repr_body q rest
  end.

Definition repr (s : string) : string :=
  let q := if contains squote s && negb (contains dquote s) then dquote else squote in
  String q (repr_body q s +:+ str1 q).

(** ** The closed vocabularies ([enum.StrEnum] classes)

    With [enum.auto()] the value of a [StrEnum] member is its lower-cased
    name; members compare as the strings they are. *)

Inductive Hook :=
| build_wheel
| build_sdist
| prepare_metadata_for_build_wheel
| get_requires_for_build_wheel
| get_requires_for_build_sdist.

Inductive Action := run | shutdown.

Inductive HookArgument :=
| wheel_directory
| config_settings
| metadata_directory
| sdist_directory.

Module HookEnum.
(** [Hook._member_names_], in definition order *)
Definition members : list Hook :=
  [build_wheel; build_sdist; prepare_metadata_for_build_wheel;
   get_requires_for_build_wheel; get_requires_for_build_sdist].

Definition name (h : Hook) : string :=
  match h with
  | build_wheel => "build_wheel"
  | build_sdist => "build_sdist"
  | prepare_metadata_for_build_wheel => "prepare_metadata_for_build_wheel"
  | get_requires_for_build_wheel => "get_requires_for_build_wheel"
  | get_requires_for_build_sdist => "get_requires_for_build_sdist"
  end.

Definition member_names : list string := map name members.

(** [Hook(text)]: the member whose value is [text] *)
Definition lookup (text : string) : option Hook :=
  find (fun h => String.eqb (name h) text) members.

Definition eqb (a b : Hook) : bool := String.eqb (name a) (name b).
End HookEnum.

Module ActionEnum.
Definition members : list Action := [run; shutdown].

Definition name (a : Action) : string :=
  match a with run => "run" | shutdown => "shutdown" end.

Definition member_names : list string := map name members.

Definition lookup (text : string) : option Action :=
  find (fun a => String.eqb (name a) text) members.

Definition eqb (a b : Action) : bool := String.eqb (name a) (name b).
End ActionEnum.

Module ArgEnum.
Definition members : list HookArgument :=
  [wheel_directory; config_settings; metadata_directory; sdist_directory].

Definition name (a : HookArgument) : string :=
  match a with
  | wheel_directory => "wheel_directory"
  | config_settings => "config_settings"
  | metadata_directory => "metadata_directory"
  | sdist_directory => "sdist_directory"
  end.

Definition eqb (a b : HookArgument) : bool := String.eqb (name a) (name b).
End ArgEnum.

(** ** Values *)

(** The identity of an interpreter object; [is] is equality of [objref]. *)
Definition objref := positive.

(** What [json.loads] can return: [None], a [bool], an [int], a [float], a
    [str], a [list], a [dict] (insertion-ordered, keys unique). A [float] is
    kept as the text it was read from and stands for [float(lexeme)]: its
    value (rounding, overflow to infinity) is not computed here. *)
Inductive Json :=
| JNull
| JBool (b : bool)
| JInt (value : Z)
| JFloat (lexeme : string)
| JString (s : string)
| JArray (items : list Json)
| JObject (members : list (string * Json)).

(** [pathlib.Path(text)]: the object built from [text]; building it reads
    nothing from the file system. *)
Inductive PyPath := Path (text : string).

(** A decoded hook argument: a path, [None], or a decoded JSON document. *)
Inductive ArgValue :=
| APath (p : PyPath)
| ANone
| AJson (v : Json).

(** ** Exceptions

    One constructor per class of the module; [Builtin] is an exception of a
    class defined elsewhere (the interpreter's, a library's, a backend's),
    known by its class name and its text. *)
Inductive Exc :=
| FatalError (msg : string)
| UnreadableInput (reason : string)
| MissingBackendModule (name : string)
| MissingBackendAttribute (module attr : string)
| MalformedBackendName (name : string)
| InvalidHookName (name : string)
| InvalidAction (name : string)
| UnsupportedHook (backend : objref) (hook : string)
| MalformedHookArgument (raw : string) (argument : HookArgument)
| HookRuntimeError (exc : Exc)
| Builtin (class_name : string) (text : string).

(** [type(exc).__name__] *)
Definition class_name_of (e : Exc) : string :=
  match e with
  | FatalError _ => "FatalError"
  | UnreadableInput _ => "UnreadableInput"
  | MissingBackendModule _ => "MissingBackendModule"
  | MissingBackendAttribute _ _ => "MissingBackendAttribute"
  | MalformedBackendName _ => "MalformedBackendName"
  | InvalidHookName _ => "InvalidHookName"
  | InvalidAction _ => "InvalidAction"
  | UnsupportedHook _ _ => "UnsupportedHook"
  | MalformedHookArgument _ _ => "MalformedHookArgument"
  | HookRuntimeError _ => "HookRuntimeError"
  | Builtin c _ => c
  end.

(** [isinstance(exc, HookdError)] *)
Definition is_HookdError (e : Exc) : bool :=
  match e with
  | MissingBackendModule _ | MissingBackendAttribute _ _
  | MalformedBackendName _ | InvalidHookName _ | InvalidAction _
  | UnsupportedHook _ _ | MalformedHookArgument _ _ | HookRuntimeError _ => true
  | FatalError _ | UnreadableInput _ | Builtin _ _ => false
  end.

(** [isinstance(exc, FatalError)] *)
Definition is_FatalError (e : Exc) : bool :=
  match e with
  | FatalError _ | UnreadableInput _ => true
  | _ => false
  end.

(** [isinstance(exc, ImportError)]: [ModuleNotFoundError] is its subclass. *)
Definition is_ImportError (e : Exc) : bool :=
  match e with
  | Builtin c _ => String.eqb c "ImportError" || String.eqb c "ModuleNotFoundError"
  | _ => false
  end.

(** [isinstance(exc, (SystemExit, KeyboardInterrupt))] *)
Definition is_termination (e : Exc) : bool :=
  match e with
  | Builtin c _ => String.eqb c "SystemExit" || String.eqb c "KeyboardInterrupt"
  | _ => false
  end.

Inductive result (A : Type) :=
| Return (a : A)
| Raise (e : Exc).
Arguments Return {A} a.
Arguments Raise {A} e.

(** ** The JSON decoder behind [json.loads]

    [json.loads] belongs to the interpreter's library; the decoder below
    follows its scanner: white space is space, tab, line feed and carriage
    return; a document is one value with nothing but white space around it;
    strings are strict (no raw control character); the literals [NaN],
    [Infinity] and [-Infinity] are accepted; a repeated key keeps its first
    position and its last value. A [\u] escape is decoded to the UTF-8 bytes
    of its code point, and a pair of surrogate escapes to the bytes of the
    one code point the pair stands for.

    The scanner gives up in three ways. [Invalid] is
    [json.decoder.JSONDecodeError]: the text is not JSON. The other two are
    limits of the interpreter, met at the place where the text goes past
    them: an integer of more digits than [sys.get_int_max_str_digits()] is a
    ValueError of [int], and a list or object nested deeper than the
    interpreter can still recurse is a RecursionError. *)
Module JsonDecoder.

Definition is_ws (c : ascii) : bool :=
  Ascii.eqb c " " || Ascii.eqb c "009" || Ascii.eqb c "010" || Ascii.eqb c "013".

Fixpoint skip_ws (s : string) : string :=
  match s with
  | String c rest => if is_ws c then skip_ws rest else s
  | EmptyString => s
  end.

Definition is_digit (c : ascii) : bool :=
  let n := nat_of_ascii c in (48 <=? n) && (n <=? 57).

Definition hex_value (c : ascii) : option N :=
  let n := N_of_ascii c in
  if (48 <=? n)%N && (n <=? 57)%N then Some (n - 48)%N
  else if (97 <=? n)%N && (n <=? 102)%N then Some (n - 87)%N
  else if (65 <=? n)%N && (n <=? 70)%N then Some (n - 55)%N
  else None.

(** The code point written by four hexadecimal digits *)
Definition hex4 (h1 h2 h3 h4 : ascii) : option N :=
  match hex_value h1, hex_value h2, hex_value h3, hex_value h4 with
  | Some a, Some b, Some c, Some d => Some (((a * 16 + b) * 16 + c) * 16 + d)%N
  | _, _, _, _ => None
  end.

Definition is_high_surrogate (n : N) : bool := (55296 <=? n)%N && (n <=? 56319)%N.

Definition is_low_surrogate (n : N) : bool := (56320 <=? n)%N && (n <=? 57343)%N.

Definition join_surrogates (high low : N) : N :=
  (65536 + ((high - 55296) * 1024 + (low - 56320)))%N.

(** The UTF-8 bytes of a code point; a surrogate left alone is written in
    the same way, in three bytes. *)
Definition utf8 (n : N) : string :=
  (if n <? 128 then str1 (ascii_of_N n)
   else if n <? 2048 then
     String (ascii_of_N (192 + n / 64)) (str1 (ascii_of_N (128 + n mod 64)))
   else if n <? 65536 then
     String (ascii_of_N (224 + n / 4096))
       (String (ascii_of_N (128 + (n / 64) mod 64))
          (str1 (ascii_of_N (128 + n mod 64))))
   else
     String (ascii_of_N (240 + n / 262144))
       (String (ascii_of_N (128 + (n / 4096) mod 64))
          (String (ascii_of_N (128 + (n / 64) mod 64))
             (str1 (ascii_of_N (128 + n mod 64))))))%N.

Definition unescape (c : ascii) : option ascii :=
  if Ascii.eqb c dquote then Some dquote
  else if Ascii.eqb c backslash then Some backslash
  else if Ascii.eqb c "/" then Some "/"%char
  else if Ascii.eqb c "b" then Some "008"%char
  else if Ascii.eqb c "f" then Some "012"%char
  else if Ascii.eqb c "n" then Some "010"%char
  else if Ascii.eqb c "r" then Some "013"%char
  else if Ascii.eqb c "t" then Some "009"%char
  else None.

Definition prepend (p : string) (r : option (string * string)) : option (string * string) :=
  match r with
  | Some (body, rest) => Some (p +:+ body, rest)
  | None => None
  end.

(** The text of a string after its opening quote, and what follows the
    closing quote. After the escape of a high surrogate, a second [\u]
    escape must be well formed; it is joined to the first when it is a low
    surrogate, and read as an escape of its own otherwise. *)
Fixpoint scanstring (s : string) : option (string * string) :=
  match s with
  | EmptyString => None
  | String c rest =>
      if Ascii.eqb c dquote then Some (EmptyString, rest)
      else if Ascii.eqb c backslash then
        match rest with
        | EmptyString => None
        | String e rest1 =>
            if Ascii.eqb e "u" then
              match rest1 with
              | String h1 (String h2 (String h3 (String h4 rest2))) =>
                  match hex4 h1 h2 h3 h4 with
                  | None => None
                  | Some uni =>
                      let alone := prepend (utf8 uni) (scanstring rest2) in
                      if is_high_surrogate uni then
                        match rest2 with
                        | String b (String u (String g1 (String g2 (String g3 (String g4 rest3))))) =>
                            if Ascii.eqb b backslash && Ascii.eqb u "u" then
                              match hex4 g1 g2 g3 g4 with
                              | None => None
                              | Some uni2 =>
                                  if is_low_surrogate uni2 then
                                    prepend (utf8 (join_surrogates uni uni2)) (scanstring rest3)
                                  else alone
                              end
                            else alone
                        | _ => alone
                        end
                      else alone
                  end
              | _ => None
              end
            else
              match unescape e with
              | Some ch => prepend (str1 ch) (scanstring rest1)
              | None => None
              end
        end
      else if nat_of_ascii c <? 32 then None
      else prepend (str1 c) (scanstring rest)
  end.

(** The longest prefix of digits, and the rest *)
Fixpoint take_digits (s : string) : string * string :=
  match s with
  | String c rest =>
      if is_digit c then let '(ds, r) := take_digits rest in (String c ds, r)
      else (EmptyString, s)
  | EmptyString => (EmptyString, s)
  end.

(** [s] without its prefix [p]; [None] when [s] does not start with [p]. *)
Fixpoint strip_prefix (p s : string) : option string :=
  match p with
  | EmptyString => Some s
  | String a p' =>
      match s with
      | String b s' => if Ascii.eqb a b then strip_prefix p' s' else None
      | EmptyString => None
      end
  end.

(** How a scan ends when it reads no value. *)
Inductive failure :=
| Invalid                                   (* [JSONDecodeError] *)
| Refused (class_name text : string)        (* an exception of the interpreter *)
| Unfinished.                               (* out of fuel *)

Inductive scan (A : Type) :=
| Scanned (value : A) (rest : string)
| Failed (f : failure).
Arguments Scanned {A} value rest.
Arguments Failed {A} f.

(** A number: an optional minus; zero, or a digit from 1 to 9 and more
    digits; then, each only when complete, a point with digits and an
    exponent with an optional sign and digits. The lexeme is the longest
    such prefix. *)
Definition scan_sign (s : string) : string * string :=
  match s with
  | String "-" r => ("-", r)
  | _ => (EmptyString, s)
  end.

Definition scan_int (s : string) : option (string * string) :=
  match s with
  | String c r =>
      if is_digit c then
        if Ascii.eqb c "0" then Some (str1 c, r)
        else let '(ds, r') := take_digits r in Some (String c ds, r')
      else None
  | EmptyString => None
  end.

Definition scan_frac (s : string) : string * string :=
  match s with
  | String "." r =>
      let '(ds, r') := take_digits r in
      if is_empty ds then (EmptyString, s) else (String "." ds, r')
  | _ => (EmptyString, s)
  end.

Definition scan_exp (s : string) : string * string :=
  match s with
  | String e r =>
      if Ascii.eqb e "e" || Ascii.eqb e "E" then
        let '(sg, r1) :=
          match r with
          | String "+" r' => ("+", r')
          | String "-" r' => ("-", r')
          | _ => (EmptyString, r)
          end in
        let '(ds, r2) := take_digits r1 in
        if is_empty ds then (EmptyString, s) else (String e (sg +:+ ds), r2)
      else (EmptyString, s)
  | EmptyString => (EmptyString, s)
  end.

(** The number written by a text of decimal digits *)
Fixpoint digits_value (acc : Z) (digits : string) : Z :=
  match digits with
  | EmptyString => acc
  | String c rest => digits_value (10 * acc + Z.of_nat (nat_of_ascii c - 48)) rest
  end.

(** The text of the ValueError that [int] raises for too many digits *)
Definition int_limit_message (limit digits : nat) : string :=
  "Exceeds the limit (" +:+ pretty limit
  +:+ " digits) for integer string conversion: value has " +:+ pretty digits
  +:+ " digits; use sys.set_int_max_str_digits() to increase the limit".

(** Below this many digits [int] does not look at the limit
    ([sys.int_info.str_digits_check_threshold]). *)
Definition int_threshold : nat := 640.

(** A number at the head of [s]. Without fraction and exponent it is an
    [int], built by [int(lexeme)]: more than [max_digits] digits are refused
    with a ValueError (the sign is not counted, and the limit 0 is no
    limit). With either it is a [float]. *)
Definition scan_number (max_digits : nat) (s : string) : scan Json :=
  let '(sign, s1) := scan_sign s in
  match scan_int s1 with
  | Some (int, s2) =>
      let '(frac, s3) := scan_frac s2 in
      let '(exp, s4) := scan_exp s3 in
      if is_empty frac && is_empty exp then
        if (int_threshold <? String.length int)
           && (0 <? max_digits) && (max_digits <? String.length int) then
          Failed (Refused "ValueError" (int_limit_message max_digits (String.length int)))
        else
          Scanned (JInt (if is_empty sign then digits_value 0 int
                         else (- digits_value 0 int)%Z)) s4
      else Scanned (JFloat (sign +:+ int +:+ frac +:+ exp)) s4
  | None => Failed Invalid
  end.

(** [d[key] = value] on an insertion-ordered dict *)
Fixpoint dict_set (d : list (string * Json)) (key : string) (value : Json) : list (string * Json) :=
  match d with
  | [] => [(key, value)]
  | (k, v) :: rest =>
      if String.eqb k key then (k, value) :: rest
      else (k, v) :: dict_set rest key value
  end.

Definition literal (max_digits : nat) (s : string) : scan Json :=
  match strip_prefix "null" s with Some r => Scanned JNull r | None =>
  match strip_prefix "true" s with Some r => Scanned (JBool true) r | None =>
  match strip_prefix "false" s with Some r => Scanned (JBool false) r | None =>
  match scan_number max_digits s with
  | Scanned number r => Scanned number r
  | Failed (Refused c t) => Failed (Refused c t)
  | Failed _ =>
  match strip_prefix "NaN" s with Some r => Scanned (JFloat "NaN") r | None =>
  match strip_prefix "Infinity" s with Some r => Scanned (JFloat "Infinity") r | None =>
  match strip_prefix "-Infinity" s with Some r => Scanned (JFloat "-Infinity") r | None =>
  Failed Invalid end end end end end end end.

(** The text after the character [c], when [s] starts with [c]. *)
Definition expect (c : ascii) (s : string) : option string :=
  match s with
  | String d r => if Ascii.eqb d c then Some r else None
  | EmptyString => None
  end.

(** The RecursionError raised on the way into one list or object too many *)
Definition too_deep (what : string) : failure :=
  Refused "RecursionError"
    ("maximum recursion depth exceeded while decoding a JSON " +:+ what
     +:+ " from a unicode string").

(** [scan_once]: one value at the head of [s]. [scan_members] reads the
    pairs of an object from the opening quote of a key on; [scan_items]
    the values of an array from the first character of a value on.
    [depth] is the number of lists and objects, one inside the other, that
    the interpreter can still enter: each one entered takes one, and at 0
    the next is refused, before anything inside it is read. The fuel only
    makes the recursion structural: twice the length of the text and one
    more is never used up. *)
Fixpoint scan_once (fuel depth max_digits : nat) (s : string) : scan Json :=
  match fuel with
  | O => Failed Unfinished
  | S fuel' =>
      match s with
      | EmptyString => Failed Invalid
      | String c rest =>
          if Ascii.eqb c dquote then
            match scanstring rest with
            | Some (text, r) => Scanned (JString text) r
            | None => Failed Invalid
            end
          else if Ascii.eqb c "{" then
            match depth with
            | O => Failed (too_deep "object")
            | S depth' =>
                match expect "}" (skip_ws rest) with
                | Some r => Scanned (JObject []) r
                | None =>
                    match scan_members fuel' depth' max_digits [] (skip_ws rest) with
                    | Scanned d r => Scanned (JObject d) r
                    | Failed f => Failed f
                    end
                end
            end
          else if Ascii.eqb c "[" then
            match depth with
            | O => Failed (too_deep "array")
            | S depth' =>
                match expect "]" (skip_ws rest) with
                | Some r => Scanned (JArray []) r
                | None =>
                    match scan_items fuel' depth' max_digits (skip_ws rest) with
                    | Scanned items r => Scanned (JArray items) r
                    | Failed f => Failed f
                    end
                end
            end
          else literal max_digits s
      end
  end
with scan_members (fuel depth max_digits : nat) (d : list (string * Json)) (s : string)
  : scan (list (string * Json)) :=
  match fuel with
  | O => Failed Unfinished
  | S fuel' =>
      match expect dquote s with
      | None => Failed Invalid
      | Some rest =>
          match scanstring rest with
          | None => Failed Invalid
          | Some (key, r) =>
              match expect ":" (skip_ws r) with
              | None => Failed Invalid
              | Some r1 =>
                  match scan_once fuel' depth max_digits (skip_ws r1) with
                  | Failed f => Failed f
                  | Scanned value r2 =>
                      let d' := dict_set d key value in
                      match expect "}" (skip_ws r2) with
                      | Some r3 => Scanned d' r3
                      | None =>
                          match expect "," (skip_ws r2) with
                          | Some r3 => scan_members fuel' depth max_digits d' (skip_ws r3)
                          | None => Failed Invalid
                          end
                      end
                  end
              end
          end
      end
  end
with scan_items (fuel depth max_digits : nat) (s : string) : scan (list Json) :=
  match fuel with
  | O => Failed Unfinished
  | S fuel' =>
      match scan_once fuel' depth max_digits s with
      | Failed f => Failed f
      | Scanned value r =>
          match expect "]" (skip_ws r) with
          | Some r1 => Scanned [value] r1
          | None =>
              match expect "," (skip_ws r) with
              | Some r1 =>
                  match scan_items fuel' depth max_digits (skip_ws r1) with
                  | Scanned items r2 => Scanned (value :: items) r2
                  | Failed f => Failed f
                  end
              | None => Failed Invalid
              end
          end
      end
  end.

(** What a call of [json.loads] comes to. *)
Inductive outcome :=
| Decoded (value : Json)
| JSONDecodeError
| OtherError (class_name text : string).

(** [json.loads(text)] in an interpreter that can still enter [depth]
    lists and objects and lets [int] read [max_digits] digits. (The last
    case does not occur: the fuel is never used up.) *)
Definition loads (depth max_digits : nat) (text : string) : outcome :=
  match scan_once (2 * String.length text + 1) depth max_digits (skip_ws text) with
  | Scanned value rest => if is_empty (skip_ws rest) then Decoded value else JSONDecodeError
  | Failed Invalid => JSONDecodeError
  | Failed (Refused class_name text) => OtherError class_name text
  | Failed Unfinished => JSONDecodeError
  end.

End JsonDecoder.

(** [StringDict]: a mapping whose values are strings or mappings of the same
    kind (the keys of a decoded JSON object are strings already). *)
Fixpoint is_StringDict (v : Json) : bool :=
  match v with
  | JObject members =>
      (fix all (ms : list (string * Json)) : bool :=
         match ms with
         | [] => true
         | (_, JString _) :: rest => all rest
         | (_, w) :: rest => is_StringDict w && all rest
         end) members
  | _ => false
  end.

(** ** The process and its surroundings *)

(** One [print] to standard output. [Line] is a print whose fields are text,
    joined by single spaces. The two debug prints keep their fields as
    values: the request summary, and an elapsed-time report (the measured
    time is not modelled). [Traceback] is [traceback.print_exception]. *)
Inductive OutLine :=
| Line (text : string)
| DebugRequest (backend_name : string) (hook : Hook) (args : list (HookArgument * ArgValue))
| DebugElapsed (what : string)
| Traceback (e : Exc).

(** The part of the operating system the module touches: the process's
    current working directory and the directories that can be entered. *)
Record FileSystem := {
  cwd : string;
  dirs : gset string;
}.

Record World := {
  stdin_readable : bool;                  (* [sys.stdin.readable()] *)
  stdin : string;                         (* the text of standard input not read yet *)
  stdout : list OutLine;                  (* the prints so far, oldest first *)
  backend_cache : gmap string objref;     (* the [functools.cache] of [_parse_build_backend] *)
  fs : FileSystem;
}.

Definition set_stdin (s : string) (w : World) : World :=
  {| stdin_readable := stdin_readable w; stdin := s; stdout := stdout w;
     backend_cache := backend_cache w; fs := fs w |}.

Definition set_stdout (o : list OutLine) (w : World) : World :=
  {| stdin_readable := stdin_readable w; stdin := stdin w; stdout := o;
     backend_cache := backend_cache w; fs := fs w |}.

Definition set_backend_cache (c : gmap string objref) (w : World) : World :=
  {| stdin_readable := stdin_readable w; stdin := stdin w; stdout := stdout w;
     backend_cache := c; fs := fs w |}.

Definition set_fs (f : FileSystem) (w : World) : World :=
  {| stdin_readable := stdin_readable w; stdin := stdin w; stdout := stdout w;
     backend_cache := backend_cache w; fs := f |}.

Definition set_cwd (d : string) (f : FileSystem) : FileSystem :=
  {| cwd := d; dirs := dirs f |}.

(** What lies outside the module: the import system, attribute lookup on
    the objects it returns, the call of a backend's hook, path resolution,
    the [DAEMON_DEBUG] switch read when the module is loaded, the object
    [None], and the two limits of the interpreter that [json.loads] can
    meet. An exception raised out there is known by its class name and its
    text. *)
Inductive import_result :=
| Imported (module : objref)
| ImportFails (class_name text : string).

Inductive call_result :=
| Returned (text : string)                (* [str] of the value returned *)
| Raised (class_name text : string).

Record Interpreter := {
  DEBUG_ON : bool;
  import_module : string -> import_result;             (* [importlib.import_module] *)
  getattr : objref -> string -> option objref;         (* [None]: [AttributeError] *)
  dict_keys : objref -> option (list string);          (* the names in [obj.__dict__] *)
  call : objref -> list ArgValue -> FileSystem -> call_result * FileSystem;
  resolve : FileSystem -> string -> result string;     (* [Path(p).resolve()] *)
  None_ : objref;                                      (* the object [None] *)
  recursion_headroom : nat;    (* the lists and objects, one inside the other, that
                                  [json.loads] can enter before a RecursionError *)
  int_max_str_digits : nat;    (* [sys.get_int_max_str_digits()]; 0 is no limit *)
}.

(** ** Computations: a world in, a result and a world out *)

Definition M (A : Type) : Type := World -> result A * World.

Definition ret {A} (a : A) : M A := fun w => (Return a, w).

Definition raise {A} (e : Exc) : M A := fun w => (Raise e, w).

Definition bind {A B} (m : M A) (k : A -> M B) : M B :=
  fun w =>
    match m w with
    | (Return a, w') => k a w'
    | (Raise e, w') => (Raise e, w')
    end.

Definition lift {A} (r : result A) : M A := fun w => (r, w).

Declare Scope hookd_scope.
Delimit Scope hookd_scope with hookd.
Notation "x <- m ;; k" := (bind m (fun x => k))
  (at level 100, m at next level, right associativity) : hookd_scope.
Notation "m ;;; k" := (bind m (fun _ => k))
  (at level 100, right associativity) : hookd_scope.
Open Scope hookd_scope.

(** [try: m  finally: cleanup]: the cleanup runs on every way out; an
    exception it raises replaces the outcome of [m]. *)
Definition try_finally {A} (m : M A) (cleanup : M unit) : M A :=
  fun w =>
    match m w with
    | (r, w') =>
        match cleanup w' with
        | (Return _, w'') => (r, w'')
        | (Raise e, w'') => (Raise e, w'')
        end
    end.

(** [for x in xs: f(x)], collecting the results *)
Fixpoint for_each {A B} (f : A -> M B) (xs : list A) : M (list B) :=
  match xs with
  | [] => ret []
  | x :: rest => y <- f x ;; ys <- for_each f rest ;; ret (y :: ys)
  end.

(** ** Protocol transport *)

(** The text up to and including the first line feed, and the rest. *)
Fixpoint readline_split (s : string) : string * string :=
  match s with
  | EmptyString => (EmptyString, EmptyString)
  | String c rest =>
      if Ascii.eqb c nl then (str1 c, rest)
      else let '(line, r) := readline_split rest in (String c line, r)
  end.

(** [buffer.readline()] *)
Definition readline : M string :=
  fun w =>
    if stdin_readable w then
      let '(line, rest) := readline_split (stdin w) in (Return line, set_stdin rest w)
    else (Raise (Builtin "UnsupportedOperation" "not readable"), w).

(** [buffer.readline().rstrip(newline)] *)
Definition read_stripped : M string :=
  line <- readline ;; ret (rstrip nl line).

(** The next line of input as the decoders see it. *)
Definition first_line (input : string) : string :=
  rstrip nl (fst (readline_split input)).

(** [print(..., file=fd)]: one entry per call. The stream is taken to
    accept what is written; a text it cannot encode, or a stream that is
    closed, makes the real [print] raise, which is outside this model. The
    text of a [Line] is written as it is, so an entry whose text holds line
    feeds is several lines on the wire. *)
Definition print (l : OutLine) : M unit :=
  fun w => (Return tt, set_stdout (stdout w ++ [l]) w).

Definition send_expect (name : string) : M unit :=
  print (Line ("EXPECT " +:+ replace "_" "-" name)).

Definition send_ready : M unit := print (Line "READY").

Definition send_shutdown : M unit := print (Line "SHUTDOWN").

Definition send_ok (result_text : string) : M unit :=
  print (Line ("OK " +:+ result_text)).

(** ** Error classes: construction and messages *)

(** The value of an instance attribute set by an [__init__]. *)
Inductive AttrValue :=
| VStr (s : string)
| VObj (o : objref)
| VArg (a : HookArgument)
| VExc (e : Exc).

(** The instance dictionary each [__init__] fills, in assignment order. *)
Definition instance_dict (e : Exc) : list (string * AttrValue) :=
  match e with
  | MissingBackendModule name => [("name", VStr name)]
  | MissingBackendAttribute module attr => [("attr", VStr attr); ("module", VStr module)]
  | MalformedBackendName name => [("name", VStr name)]
  | InvalidHookName name => [("name", VStr name)]
  | InvalidAction name => [("name", VStr name)]
  | UnsupportedHook backend hook => [("backend", VObj backend); ("hook", VStr hook)]
  | MalformedHookArgument raw argument => [("raw", VStr raw); ("argument", VArg argument)]
  | HookRuntimeError exc => [("exc", VExc exc)]
  | FatalError _ | UnreadableInput _ | Builtin _ _ => []
  end%string.

Fixpoint assoc {V} (key : string) (l : list (string * V)) : option V :=
  match l with
  | [] => None
  | (k, v) :: rest => if String.eqb k key then Some v else assoc key rest
  end.

(** [self.<attr>]: an attribute no [__init__] has set is an
    [AttributeError]. *)
Definition self_attr (self : Exc) (attr : string) : result AttrValue :=
  match assoc attr (instance_dict self) with
  | Some v => Return v
  | None =>
      Raise (Builtin "AttributeError"
               ("'" +:+ class_name_of self +:+ "' object has no attribute '" +:+ attr +:+ "'"))
  end.

(** The [repr] of [self.<attr>] inside a formatted message. The messages of
    the module format text attributes only; the [repr] of another object is
    left as a placeholder. *)
Definition self_repr (self : Exc) (attr : string) : result string :=
  match self_attr self attr with
  | Return (VStr s) => Return (repr s)
  | Return _ => Return "<object>"
  | Raise e => Raise e
  end.

Definition result_bind {A B} (r : result A) (k : A -> result B) : result B :=
  match r with
  | Return a => k a
  | Raise e => Raise e
  end.

(** A call of the class [UnreadableInput]: [__init__(self, reason)] takes
    exactly one argument; any other call is a [TypeError] raised by the call
    itself. *)
Definition UnreadableInput_new (args : list string) : result Exc :=
  match args with
  | [reason] => Return (UnreadableInput reason)
  | [] =>
      Raise (Builtin "TypeError"
               "UnreadableInput.__init__() missing 1 required positional argument: 'reason'")
  | _ =>
      Raise (Builtin "TypeError"
               "UnreadableInput.__init__() takes 2 positional arguments but more were given")
  end.

Section Messages.
Variable py : Interpreter.

(** [UnsupportedHook.message]: the hook names found in the backend's
    [__dict__], then the text, which reads [self.name]. *)
Definition UnsupportedHook_message (self : Exc) (backend : objref) : result string :=
  let hook_names := HookEnum.member_names in
  match dict_keys py backend with
  | None =>
      Raise (Builtin "AttributeError" "object has no attribute '__dict__'")
  | Some keys =>
      let names :=
        join ", " (map repr (filter (fun name => existsb (String.eqb name) hook_names) keys)) in
      result_bind (self_repr self "name") (fun name =>
      Return ("The hook " +:+ name +:+
              " is not supported by the backend. The backend supports: " +:+ names))
  end.

(** [str(exc)]: [HookdError.__str__] is [self.message()]; the other
    classes give the text they were built with. *)
Fixpoint str_exc (e : Exc) : result string :=
  match e with
  | FatalError msg => Return msg
  | UnreadableInput reason => Return ("Standard input is not readable " +:+ reason)
  | Builtin _ text => Return text
  | MissingBackendModule _ =>
      result_bind (self_repr e "name") (fun name =>
      Return ("Failed to import the backend " +:+ name))
  | MissingBackendAttribute _ _ =>
      result_bind (self_repr e "attr") (fun attr =>
      result_bind (self_repr e "module") (fun module =>
      Return ("Failed to find attribute " +:+ attr +:+ " in the backend module " +:+ module)))
  | MalformedBackendName _ =>
      result_bind (self_repr e "name") (fun name =>
      Return ("Backend " +:+ name +:+ " is malformed"))
  | InvalidHookName _ =>
      let names := join ", " (map repr HookEnum.member_names) in
      result_bind (self_repr e "name") (fun name =>
      Return ("The name " +:+ name +:+ " is not valid hook. Expected one of: " +:+ names))
  | InvalidAction _ =>
      let names := join ", " (map repr ActionEnum.member_names) in
      result_bind (self_repr e "name") (fun name =>
      Return ("Received invalid action " +:+ name +:+ ". Expected one of: " +:+ names))
  | UnsupportedHook backend _ => UnsupportedHook_message e backend
  | MalformedHookArgument raw argument =>
      Return ("Malformed content for argument " +:+ repr (ArgEnum.name argument) +:+ ": " +:+ repr raw)
  | HookRuntimeError exc => str_exc exc
  end.

(** [print("ERROR", type(exc).__name__, str(exc))]: the fields are
    evaluated before anything is written. *)
Definition send_error (exc : Exc) : M unit :=
  text <- lift (str_exc exc) ;;
  print (Line ("ERROR " +:+ class_name_of exc +:+ " " +:+ text)).

Definition send_fatal (exc : Exc) : M unit :=
  text <- lift (str_exc exc) ;;
  print (Line ("FATAL " +:+ class_name_of exc +:+ " " +:+ text)) ;;;
  if DEBUG_ON py then print (Traceback exc) else ret tt.

End Messages.

(** ** Request decoder *)

Module HookFromStr.
(** [Hook.from_str] *)
Definition from_str (name : string) : result Hook :=
  match HookEnum.lookup name with
  | Some h => Return h
  | None => Raise (InvalidHookName name)
  end.
End HookFromStr.

Module ActionFromStr.
(** [Action.from_str] *)
Definition from_str (action : string) : result Action :=
  match ActionEnum.lookup action with
  | Some a => Return a
  | None => Raise (InvalidAction action)
  end.
End ActionFromStr.

Definition parse_action : M Action :=
  action <- read_stripped ;; lift (ActionFromStr.from_str action).

Definition parse_hook_name : M Hook :=
  name <- read_stripped ;; lift (HookFromStr.from_str name).

Definition parse_path : M PyPath :=
  text <- read_stripped ;; ret (Path text).

Definition parse_optional_path : M (option PyPath) :=
  data <- read_stripped ;;
  if is_empty data then ret None else ret (Some (Path data)).

(** [parse_config_settings]: the [except] clause catches JSONDecodeError
    only; whatever else [json.loads] raises goes on to the caller. *)
Definition parse_config_settings (py : Interpreter) : M (option Json) :=
  data <- read_stripped ;;
  if is_empty data then ret None
  else
    match JsonDecoder.loads (recursion_headroom py) (int_max_str_digits py) data with
    | JsonDecoder.Decoded v => ret (Some v)
    | JsonDecoder.JSONDecodeError => raise (MalformedHookArgument data config_settings)
    | JsonDecoder.OtherError class_name text => raise (Builtin class_name text)
    end.

Definition optional_path_value (p : option PyPath) : ArgValue :=
  match p with Some q => APath q | None => ANone end.

Definition optional_json_value (v : option Json) : ArgValue :=
  match v with Some j => AJson j | None => ANone end.

(** The chain of [if hook_arg == ...] tests, then the fatal fall-through. *)
Definition parse_hook_argument (py : Interpreter) (hook_arg : HookArgument) : M ArgValue :=
  if ArgEnum.eqb hook_arg wheel_directory then
    p <- parse_path ;; ret (APath p)
  else if ArgEnum.eqb hook_arg metadata_directory then
    p <- parse_optional_path ;; ret (optional_path_value p)
  else if ArgEnum.eqb hook_arg sdist_directory then
    p <- parse_path ;; ret (APath p)
  else if ArgEnum.eqb hook_arg config_settings then
    v <- parse_config_settings py ;; ret (optional_json_value v)
  else
    raise (FatalError ("No parser for hook argument kind " +:+ repr (ArgEnum.name hook_arg))).

(** ** Hook/argument registry: the [HookArguments] dict, in source order *)

Definition HookArguments : list (Hook * list HookArgument) :=
  [ (build_sdist, [sdist_directory; config_settings]);
    (build_wheel, [wheel_directory; config_settings; metadata_directory]);
    (prepare_metadata_for_build_wheel, [metadata_directory; config_settings]);
    (get_requires_for_build_sdist, [config_settings]);
    (get_requires_for_build_wheel, [config_settings]) ].

(** [HookArguments[hook]]; [None] is [hook not in HookArguments]. *)
Fixpoint registry_get (registry : list (Hook * list HookArgument)) (hook : Hook)
  : option (list HookArgument) :=
  match registry with
  | [] => None
  | (k, v) :: rest => if HookEnum.eqb k hook then Some v else registry_get rest hook
  end.

(** ** Backend resolver *)

Definition default_backend : string := "setuptools.build_meta:__legacy__".

Section Resolver.
Variable py : Interpreter.

Definition import_ (name : string) : result objref :=
  match import_module py name with
  | Imported m => Return m
  | ImportFails c t => Raise (Builtin c t)
  end.

(** After the split: import the module, fall back to an attribute of the
    parent module, then take the named attribute. The local [backend] is
    [None] until an attribute is looked up, and the value looked up can be
    the object [None] too: the last test cannot tell the two apart and gives
    the module in both cases. *)
Definition load_backend (raw module_name : string) (attribute : option string)
  : result objref :=
  (* module = None; backend = None; try: module = import_module(module_name) *)
  result_bind
    (match import_ module_name with
     | Return m => Return (Some m)
     | Raise e =>
         if is_ImportError e then
           if negb (contains "." module_name) then Raise (MissingBackendModule module_name)
           else Return None
         else Raise e
     end)
    (fun module =>
  (* if module is None: *)
  result_bind
    (match module with
     | Some m => Return (m, None)
     | None =>
         match rsplit1 "." module_name with
         | None => Raise (Builtin "ValueError" "not enough values to unpack")
         | Some (parent_name, child_name) =>
             match import_ parent_name with
             | Return m =>
                 match getattr py m child_name with
                 | Some b => Return (m, Some b)
                 | None => Raise (MissingBackendAttribute module_name child_name)
                 end
             | Raise e =>
                 if is_ImportError e then Raise (MissingBackendModule module_name)
                 else Raise e
             end
         end
     end)
    (fun '(m, backend) =>
  (* if attribute is not None: *)
  result_bind
    (match attribute with
     | Some a =>
         match getattr py m a with
         | Some b => Return (Some b)
         | None => Raise (MissingBackendAttribute module_name raw)
         end
     | None => Return backend
     end)
    (fun backend' =>
  (* if backend is None: backend = module *)
  Return (match backend' with
          | Some b => if Pos.eqb b (None_ py) then m else b
          | None => m
          end)))).

(** The body of [_parse_build_backend], as run on a cache miss. *)
Definition resolve_backend (raw : string) : result objref :=
  match split ":" raw with
  | [module_name] => load_backend raw module_name None
  | [module_name; attribute] =>
      if is_empty attribute then Raise (MalformedBackendName raw)
      else load_backend raw module_name (Some attribute)
  | _ => Raise (MalformedBackendName raw)
  end.

(** [_parse_build_backend] under [functools.cache]: a hit returns the
    stored handle; a miss runs the body and stores what it returns; an
    exception stores nothing. *)
Definition _parse_build_backend (raw : string) : M objref :=
  fun w =>
    match backend_cache w !! raw with
    | Some backend => (Return backend, w)
    | None =>
        match resolve_backend raw with
        | Return backend =>
            (Return backend, set_backend_cache (<[raw := backend]> (backend_cache w)) w)
        | Raise e => (Raise e, w)
        end
    end.

Definition parse_build_backend : M (objref * string) :=
  raw <- read_stripped ;;
  let raw := if is_empty raw then default_backend else raw in
  backend <- _parse_build_backend raw ;;
  ret (backend, raw).

End Resolver.

(** ** Scoped change of working directory *)

(** [os.getcwd()] *)
Definition os_getcwd : M string :=
  fun w =>
    if decide (cwd (fs w) ∈ dirs (fs w)) then (Return (cwd (fs w)), w)
    else (Raise (Builtin "FileNotFoundError" "No such file or directory"), w).

(** [os.chdir(path)]: enters [path] when it is a directory that can be
    entered, and raises without moving otherwise. Which OSError the system
    raises (no such directory, not a directory, no permission), and its
    text, is not told apart here: the one exception below stands for all. *)
Definition os_chdir (path : string) : M unit :=
  fun w =>
    if decide (path ∈ dirs (fs w)) then (Return tt, set_fs (set_cwd path (fs w)) w)
    else (Raise (Builtin "FileNotFoundError" ("No such file or directory: " +:+ repr path)), w).

Section Tmpchdir.
Variable py : Interpreter.

(** [with tmpchdir(path) as p: body(p)] *)
Definition tmpchdir {A} (path : string) (body : string -> M A) : M A :=
  path' <- (fun w => (resolve py (fs w) path, w)) ;;
  cwd0 <- os_getcwd ;;
  try_finally
    (os_chdir path' ;;; body path')
    (os_chdir cwd0).
End Tmpchdir.

(** ** Hook dispatcher and session loop *)

(** [repr] of a [Hook] member *)
Definition repr_hook (h : Hook) : string :=
  "<Hook." +:+ HookEnum.name h +:+ ": " +:+ repr (HookEnum.name h) +:+ ">".

Section Session.
Variable py : Interpreter.

(** The inner [parse] of [run_once] *)
Definition parse (argument : HookArgument) : M ArgValue :=
  send_expect (ArgEnum.name argument) ;;;
  parse_hook_argument py argument.

(** The call of the hook with the decoded arguments, and its
  [except BaseException] clause *)
Definition call_hook (hook : objref) (args : list ArgValue) : M string :=
  fun w =>
    match call py hook args (fs w) with
    | (Returned text, f) => (Return text, set_fs f w)
    | (Raised c t, f) =>
        let exc := Builtin c t in
        if is_termination exc then (Raise exc, set_fs f w)
        else (Raise (HookRuntimeError exc), set_fs f w)
    end.

Definition run_once : M unit :=
  send_expect "build-backend" ;;;
  resolved <- parse_build_backend py ;;
  let build_backend := fst resolved in
  let build_backend_name := snd resolved in
  send_expect "hook-name" ;;;
  hook_name <- parse_hook_name ;;
  match registry_get HookArguments hook_name with
  | None => raise (FatalError ("No arguments defined for hook " +:+ repr_hook hook_name))
  | Some schema =>
      args <- for_each parse schema ;;
      print (DebugRequest build_backend_name hook_name (combine schema args)) ;;;
      hook <- match getattr py build_backend (HookEnum.name hook_name) with
              | Some h => ret h
              | None => raise (UnsupportedHook build_backend (HookEnum.name hook_name))
              end ;;
      print (DebugElapsed "parsed hook inputs") ;;;
      result_text <- call_hook hook args ;;
      send_ok result_text
  end.

(** The [try] block of one turn of [main]'s loop; [true] is [break]. *)
Definition main_try : M bool :=
  readable <- (fun w => (Return (stdin_readable w), w)) ;;
  (if negb readable then
     exc <- lift (UnreadableInput_new []) ;; raise exc
   else ret tt) ;;;
  send_ready ;;;
  send_expect "action" ;;;
  action <- parse_action ;;
  if ActionEnum.eqb action shutdown then
    send_shutdown ;;; ret true
  else
    run_once ;;;
    print (DebugElapsed "ran hook") ;;;
    ret false.

(** How one turn of the loop ends. *)
Inductive Turn :=
| Again                     (* next turn *)
| Done                      (* [break], or [return] in debug mode *)
| Uncaught (e : Exc).       (* an exception leaves [main] *)

(** One turn: the [try] block, its two [except] clauses (an exception
    raised inside a clause leaves [main]), then the debug-mode return. *)
Definition main_turn (w : World) : Turn * World :=
  let after (w' : World) := if DEBUG_ON py then (Done, w') else (Again, w') in
  match main_try w with
  | (Return true, w') => (Done, w')
  | (Return false, w') => after w'
  | (Raise exc, w') =>
      if is_HookdError exc then
        match send_error py exc w' with
        | (Return _, w'') => after w''
        | (Raise e, w'') => (Uncaught e, w'')
        end
      else
        match send_fatal py exc w' with
        | (Return _, w'') => (Uncaught exc, w'')
        | (Raise e, w'') => (Uncaught e, w'')
        end
  end.

(** How the process ends: [main] returns (exit status 0), or an exception
    leaves it. The interpreter then ends the process: with the traceback
    and a failure status, or, for a SystemExit, with the status that
    exception carries (0 when it was raised without one). *)
Inductive Ending :=
| Success
| Failure (e : Exc).

(** [main]: [while True] over [main_turn]; [None] when the loop is still
    running after [turns] turns. *)
Fixpoint main (turns : nat) (w : World) : option (Ending * World) :=
  match turns with
  | O => None
  | S n =>
      match main_turn w with
      | (Again, w') => main n w'
      | (Done, w') => Some (Success, w')
      | (Uncaught e, w') => Some (Failure e, w')
      end
  end.

End Session.

(** ** A small installation to run the daemon on

    The package [setuptools] (object 1) with its submodule
    [setuptools.build_meta] (object 2), which exposes three of the five
    hooks (not prepare_metadata_for_build_wheel, not
    get_requires_for_build_sdist) and the attribute [__legacy__] (object 3).
    As in the interpreter, an imported submodule is also an attribute of its
    package, and the empty module name is refused with a [ValueError]. The
    object [None] is object 4; [int] reads 4300 digits, the default, and
    [json.loads] can enter 990 nested lists and objects. *)
Module Demo.

Definition installed (name : string) : import_result :=
  if String.eqb name "setuptools" then Imported 1%positive
  else if String.eqb name "setuptools.build_meta" then Imported 2%positive
  else if is_empty name then ImportFails "ValueError" "Empty module name"
  else ImportFails "ModuleNotFoundError" ("No module named " +:+ repr name).

Definition attribute_of (o : objref) (attr : string) : option objref :=
  match o with
  | 1%positive => if String.eqb attr "build_meta" then Some 2%positive else None
  | 2%positive =>
      if String.eqb attr "__legacy__" then Some 3%positive
      else if String.eqb attr "build_wheel" then Some 10%positive
      else if String.eqb attr "build_sdist" then Some 11%positive
      else if String.eqb attr "get_requires_for_build_wheel" then Some 12%positive
      else None
  | _ => None
  end.

Definition namespace_of (o : objref) : option (list string) :=
  match o with
  | 1%positive => Some ["__name__"; "build_meta"]%string
  | 2%positive =>
      Some ["__name__"; "build_wheel"; "__legacy__"; "build_sdist";
            "get_requires_for_build_wheel"]%string
  | _ => Some []
  end.

Definition run_hook (o : objref) (args : list ArgValue) (f : FileSystem)
  : call_result * FileSystem :=
  match o with
  | 10%positive => (Returned "pkg-1.0-py3-none-any.whl", f)
  | 11%positive => (Returned "pkg-1.0.tar.gz", f)
  | 12%positive => (Returned "['wheel']", f)
  | _ => (Raised "TypeError" "object is not callable", f)
  end.

Definition py : Interpreter := {|
  DEBUG_ON := false;
  import_module := installed;
  getattr := attribute_of;
  dict_keys := namespace_of;
  call := run_hook;
  resolve := fun _ path => Return path;
  None_ := 4%positive;
  recursion_headroom := 990;
  int_max_str_digits := 4300;
|}.

Definition files : FileSystem :=
  {| cwd := "/src"; dirs := {[ "/src"%string; "/tmp"%string ]} |}.

(** The process at its start, with [input] waiting on standard input. *)
Definition start (input : string) : World :=
  {| stdin_readable := true; stdin := input; stdout := [];
     backend_cache := ∅; fs := files |}.

(** The same process with standard input closed for reading. *)
Definition start_unreadable : World :=
  {| stdin_readable := false; stdin := EmptyString; stdout := [];
     backend_cache := ∅; fs := files |}.

(** Input lines, each ended by a line feed. *)
Fixpoint lines (ls : list string) : string :=
  match ls with
  | [] => EmptyString
  | l :: rest => l +:+ String nl (lines rest)
  end.

(** JSON text written with single quotes standing for the double ones. *)
Definition json_text (s : string) : string := replace squote dquote s.

(** A [with] body that removes the directory the process started in. *)
Definition remove_start_directory (_ : string) : M unit :=
  fun w =>
    (Return tt,
     set_fs {| cwd := cwd (fs w); dirs := dirs (fs w) ∖ {[ "/src"%string ]} |} w).

(** A [with] body that raises. *)
Definition failing_body (_ : string) : M unit :=
  raise (Builtin "RuntimeError" "boom").

(** A [with] body that does nothing. *)
Definition idle_body (_ : string) : M unit := ret tt.

End Demo.

(** [true] when the computation raised an exception of class [FatalError]
    (or of its subclass). *)
Definition raises_fatal {A} (r : result A) : bool :=
  match r with
  | Raise e => is_FatalError e
  | Return _ => false
  end.

(** ** Predicates used in the statements *)

(** A computation that never raises a [FatalError], whatever the world. *)
Definition no_fatal {A} (m : M A) : Prop :=
  forall w, raises_fatal (fst (m w)) = false.

(** The cache over a whole session: computations that only add entries. *)
Definition keeps_cache {A} (m : M A) : Prop :=
  forall w, backend_cache w ⊆ backend_cache (snd (m w)).

(** The BackendSpec invariant in the words of the specification: the module
    part before any colon is not empty; with a colon, the attribute part is
    not empty; more than one colon is malformed. *)
Definition violates_BackendSpec (raw : string) : bool :=
  match split ":" raw with
  | [module_part] => is_empty module_part
  | [module_part; attribute_part] => is_empty module_part || is_empty attribute_part
  | _ => true
  end.

(** What [_parse_build_backend] rejects as malformed. *)
Definition rejected_as_malformed (raw : string) : bool :=
  match split ":" raw with
  | [_] => false
  | [_; attribute_part] => is_empty attribute_part
  | _ => true
  end.

(** The text of [n] times the character [c] *)
Fixpoint times (n : nat) (c : ascii) : string :=
  match n with
  | O => EmptyString
  | S k => String c (times k c)
  end.

(** What a scan of the text [s] can come to: a value, read from at least
    one character; [JSONDecodeError]; or one of the two refusals, each only
    for a text longer than the limit it goes past. Running out of fuel is
    not among them. *)
Definition bounded {A} (depth max_digits : nat) (s : string) (r : JsonDecoder.scan A)
  : Prop :=
  match r with
  | JsonDecoder.Scanned _ rest => String.length rest < String.length s
  | JsonDecoder.Failed JsonDecoder.Invalid => True
  | JsonDecoder.Failed (JsonDecoder.Refused class_name _) =>
      (class_name = "RecursionError" /\ depth < String.length s)
      \/ (class_name = "ValueError" /\ 0 < max_digits < String.length s)
  | JsonDecoder.Failed JsonDecoder.Unfinished => False
  end.

(** ** Further predicates and data for the statements *)

(** An exception whose message can be built: every class except
    [UnsupportedHook], also under [HookRuntimeError]. *)
Fixpoint reportable (e : Exc) : bool :=
  match e with
  | UnsupportedHook _ _ => false
  | HookRuntimeError exc => reportable exc
  | _ => true
  end.

(** The module part of a backend line: the text before the first colon. *)
Definition module_part (raw : string) : string := hd EmptyString (split ":" raw).


(** Text of printable ASCII characters only: no control character, no line
    feed, nothing an ASCII-compatible stream could fail to encode. On such
    text [repr] above is Python's [repr] character for character. *)
Definition is_printable (c : ascii) : bool :=
  let n := nat_of_ascii c in (32 <=? n) && (n <? 127).

Fixpoint printable (s : string) : bool :=
  match s with
  | EmptyString => true
  | String c rest => is_printable c && printable rest
  end.

(** An exception all of whose texts are printable. *)
Fixpoint printable_exc (e : Exc) : bool :=
  match e with
  | FatalError msg => printable msg
  | UnreadableInput reason => printable reason
  | MissingBackendModule name => printable name
  | MissingBackendAttribute module attr => printable module && printable attr
  | MalformedBackendName name => printable name
  | InvalidHookName name => printable name
  | InvalidAction name => printable name
  | UnsupportedHook _ hook => printable hook
  | MalformedHookArgument raw _ => printable raw
  | HookRuntimeError exc => printable_exc exc
  | Builtin class_name text => printable class_name && printable text
  end.


(** An installation with a package [pkg] (object 20) that has no submodule
    to import but two attributes: [backend] (object 21), and [nothing],
    whose value is [None]. *)
Definition flat_py : Interpreter := {|
  DEBUG_ON := false;
  import_module := fun name =>
    if String.eqb name "pkg" then Imported 20%positive else import_module Demo.py name;
  getattr := fun o attr =>
    match o with
    | 20%positive =>
        if String.eqb attr "backend" then Some 21%positive
        else if String.eqb attr "nothing" then Some (None_ Demo.py)
        else None
    | _ => getattr Demo.py o attr
    end;
  dict_keys := dict_keys Demo.py;
  call := call Demo.py;
  resolve := resolve Demo.py;
  None_ := None_ Demo.py;
  recursion_headroom := recursion_headroom Demo.py;
  int_max_str_digits := int_max_str_digits Demo.py;
|}.

(** What decoding a config_settings line can raise: the decoder's own
    error, or one of the two that [json.loads] raises at a limit of the
    interpreter. *)
Definition config_settings_error (e : Exc) : Prop :=
  (exists raw, e = MalformedHookArgument raw config_settings)
  \/ (exists text, e = Builtin "RecursionError" text)
  \/ (exists text, e = Builtin "ValueError" text).

(** The line [send_expect] prints for an argument of a hook. *)
Definition expect_line (argument : HookArgument) : OutLine :=
  Line ("EXPECT " +:+ replace "_" "-" (ArgEnum.name argument)).

(** The input left after [k] calls of [readline]. *)
Fixpoint skip_lines (k : nat) (input : string) : string :=
  match k with
  | O => input
  | S k' => skip_lines k' (snd (readline_split input))
  end.

(** The small installation with [DAEMON_DEBUG] set. *)
Definition debug_py : Interpreter := {|
  DEBUG_ON := true;
  import_module := import_module Demo.py;
  getattr := getattr Demo.py;
  dict_keys := dict_keys Demo.py;
  call := call Demo.py;
  resolve := resolve Demo.py;
  None_ := None_ Demo.py;
  recursion_headroom := recursion_headroom Demo.py;
  int_max_str_digits := int_max_str_digits Demo.py;
|}.

(** A hook that changes the working directory and fails. *)
Definition wandering_py : Interpreter := {|
  DEBUG_ON := false;
  import_module := import_module Demo.py;
  getattr := getattr Demo.py;
  dict_keys := dict_keys Demo.py;
  call := fun _ _ f => (Raised "KeyboardInterrupt" EmptyString, set_cwd "/tmp" f);
  resolve := resolve Demo.py;
  None_ := None_ Demo.py;
  recursion_headroom := recursion_headroom Demo.py;
  int_max_str_digits := int_max_str_digits Demo.py;
|}.

(** A computation whose every run takes the world to a related one. *)
Definition related (R : World -> World -> Prop) {A} (m : M A) : Prop :=
  forall w, R w (snd (m w)).

(** * Properties *)

(** ** Text helpers *)

Example repr_plain : repr "build_wheel" = "'build_wheel'"%string.
Proof. reflexivity. Qed.

Example split_two : split ":" "a.b:c" = ["a.b"; "c"]%string.
Proof. reflexivity. Qed.

Example split_none : split ":" "abc" = ["abc"]%string.
Proof. reflexivity. Qed.

Example rstrip_twice : rstrip nl (String "a" (String nl (str1 nl))) = "a"%string.
Proof. reflexivity. Qed.

Lemma contains_cons c d s :
  contains c (String d s) = false -> Ascii.eqb d c = false /\ contains c s = false.
Proof.
  simpl. intros H. apply orb_false_iff in H as [H1 H2].
  split; [ | exact H2 ]. rewrite Ascii.eqb_sym. exact H1.
Qed.

Lemma readline_split_line line rest :
  contains nl line = false ->
  readline_split (line +:+ String nl rest) = (line +:+ str1 nl, rest).
Proof.
  induction line as [ | c line IH ]; intros Hnl.
  - reflexivity.
  - apply contains_cons in Hnl as [Hc Hrest].
    simpl. rewrite Hc, (IH Hrest). reflexivity.
Qed.

Lemma rstrip_line line :
  contains nl line = false -> rstrip nl (line +:+ str1 nl) = line.
Proof.
  induction line as [ | c line IH ]; intros Hnl.
  - reflexivity.
  - apply contains_cons in Hnl as [Hc Hrest].
    simpl. rewrite (IH Hrest), Hc. reflexivity.
Qed.

Lemma first_line_of line rest :
  contains nl line = false -> first_line (line +:+ String nl rest) = line.
Proof.
  intros Hnl. unfold first_line.
  rewrite (readline_split_line _ _ Hnl). simpl. apply rstrip_line, Hnl.
Qed.

Lemma is_empty_true s : is_empty s = true -> s = EmptyString.
Proof. destruct s; [ reflexivity | discriminate ]. Qed.

(** ** Protocol transport *)

Lemma read_stripped_readable w :
  stdin_readable w = true ->
  read_stripped w
  = (Return (first_line (stdin w)), set_stdin (snd (readline_split (stdin w))) w).
Proof.
  intros Hr. unfold read_stripped, bind, readline, first_line. rewrite Hr.
  destruct (readline_split (stdin w)) as [line rest]. reflexivity.
Qed.

Lemma read_stripped_line w line rest :
  stdin_readable w = true ->
  contains nl line = false ->
  stdin w = line +:+ String nl rest ->
  read_stripped w = (Return line, set_stdin rest w).
Proof.
  intros Hr Hnl Hin. rewrite (read_stripped_readable _ Hr), Hin.
  rewrite (first_line_of _ _ Hnl), (readline_split_line _ _ Hnl). reflexivity.
Qed.

(** ** The JSON decoder: the scanner ends, and only past a limit is a text
    refused *)

Module JsonFacts.
Import JsonDecoder.

Lemma skip_ws_length s : String.length (skip_ws s) <= String.length s.
Proof.
  induction s as [ | c s IH ]; simpl; [ lia | ].
  destruct (is_ws c); simpl; lia.
Qed.

Lemma prepend_some p r body rest :
  prepend p r = Some (body, rest) -> exists body', r = Some (body', rest).
Proof.
  destruct r as [[body' rest'] | ]; simpl; intros H; inversion H; subst; eauto.
Qed.

Lemma scanstring_shorter_upto n :
  forall s, String.length s <= n ->
  forall body rest, scanstring s = Some (body, rest) ->
  String.length rest < String.length s.
Proof.
  induction n as [ | n IH ]; intros s Hlen body rest.
  - destruct s; [ discriminate | simpl in Hlen; lia ].
  - destruct s as [ | c s ]; [ discriminate | ].
    simpl in Hlen. cbn [scanstring].
    destruct (Ascii.eqb c dquote).
    { intros H. inversion H; subst. simpl. lia. }
    assert (Hstep : forall p tail,
              String.length tail <= String.length s ->
              prepend p (scanstring tail) = Some (body, rest) ->
              String.length rest < String.length (String c s)).
    { intros p tail Htail H. apply prepend_some in H as [body' H].
      apply IH in H; simpl in *; lia. }
    destruct (Ascii.eqb c backslash).
    + destruct s as [ | e s1 ]; [ discriminate | ].
      destruct (Ascii.eqb e "u").
      * destruct s1 as [ | h1 [ | h2 [ | h3 [ | h4 s2 ] ] ] ]; try discriminate.
        destruct (hex4 h1 h2 h3 h4) as [uni | ]; [ | discriminate ].
        cbv zeta.
        assert (Halone : prepend (utf8 uni) (scanstring s2) = Some (body, rest) ->
                         String.length rest
                         < String.length (String c (String e (String h1 (String h2 (String h3 (String h4 s2))))))).
        { apply Hstep. simpl. lia. }
        destruct (is_high_surrogate uni); [ | exact Halone ].
        destruct s2 as [ | b [ | u [ | g1 [ | g2 [ | g3 [ | g4 s3 ] ] ] ] ] ]; try exact Halone.
        destruct (Ascii.eqb b backslash && Ascii.eqb u "u"); [ | exact Halone ].
        destruct (hex4 g1 g2 g3 g4) as [uni2 | ]; [ | discriminate ].
        destruct (is_low_surrogate uni2); [ | exact Halone ].
        apply Hstep. simpl. lia.
      * destruct (unescape e); [ | discriminate ].
        apply Hstep. simpl. lia.
    + destruct (nat_of_ascii c <? 32); [ discriminate | ].
      apply Hstep. lia.
Qed.

Lemma scanstring_shorter s body rest :
  scanstring s = Some (body, rest) -> String.length rest < String.length s.
Proof. apply (scanstring_shorter_upto (String.length s)). lia. Qed.

Lemma take_digits_length s :
  String.length (fst (take_digits s)) + String.length (snd (take_digits s))
  = String.length s.
Proof.
  induction s as [ | c s IH ]; simpl; [ lia | ].
  destruct (is_digit c); [ | simpl; lia ].
  destruct (take_digits s) as [ds r]. simpl in *. lia.
Qed.

Lemma strip_prefix_length p : forall s r,
  strip_prefix p s = Some r -> String.length r + String.length p = String.length s.
Proof.
  induction p as [ | a p IH ]; intros s r; simpl.
  - intros H. inversion H; subst. lia.
  - destruct s as [ | b s ]; [ discriminate | ].
    destruct (Ascii.eqb a b); [ | discriminate ].
    intros H. apply IH in H. simpl. lia.
Qed.

Lemma scan_sign_length s : String.length (snd (scan_sign s)) <= String.length s.
Proof.
  unfold scan_sign. destruct s as [ | c r ]; [ simpl; lia | ].
  destruct (Ascii.eqb_spec c "-") as [-> | Hc].
  - simpl. lia.
  - destruct c as [[] [] [] [] [] [] [] []]; simpl; lia.
Qed.

Lemma scan_int_length s int rest :
  scan_int s = Some (int, rest) ->
  String.length int + String.length rest = String.length s /\ 0 < String.length int.
Proof.
  unfold scan_int. destruct s as [ | c r ]; [ discriminate | ].
  destruct (is_digit c); [ | discriminate ].
  destruct (Ascii.eqb c "0").
  - intros H. inversion H; subst. simpl. lia.
  - pose proof (take_digits_length r) as Hd. destruct (take_digits r) as [ds r'].
    intros H. inversion H; subst. simpl in *. lia.
Qed.

Lemma scan_frac_length s : String.length (snd (scan_frac s)) <= String.length s.
Proof.
  unfold scan_frac. destruct s as [ | c r ]; [ simpl; lia | ].
  assert (Hpoint :
    String.length
      (snd (let '(ds, r') := take_digits r in
            if is_empty ds then (EmptyString, String c r) else (String "." ds, r')))
    <= String.length (String c r)).
  { pose proof (take_digits_length r) as Hd. destruct (take_digits r) as [ds r'].
    destruct (is_empty ds); simpl in *; lia. }
  destruct c as [[] [] [] [] [] [] [] []]; try (simpl; lia). exact Hpoint.
Qed.

Lemma scan_exp_length s : String.length (snd (scan_exp s)) <= String.length s.
Proof.
  unfold scan_exp. destruct s as [ | e r ]; [ simpl; lia | ].
  destruct (Ascii.eqb e "e" || Ascii.eqb e "E"); [ | simpl; lia ].
  assert (Hsg : forall sg r1, String.length r1 <= String.length r ->
            String.length
              (snd (let '(ds, r2) := take_digits r1 in
                    if is_empty ds then (EmptyString, String e r)
                    else (String e (sg +:+ ds), r2)))
            <= String.length (String e r)).
  { intros sg r1 Hr1. pose proof (take_digits_length r1) as Hd.
    destruct (take_digits r1) as [ds r2]. destruct (is_empty ds); simpl in *; lia. }
  destruct r as [ | c r' ]; [ apply Hsg; lia | ].
  destruct c as [[] [] [] [] [] [] [] []]; apply Hsg; simpl; lia.
Qed.

Lemma expect_length c s r : expect c s = Some r -> String.length s = S (String.length r).
Proof.
  unfold expect. destruct s as [ | d s' ]; [ discriminate | ].
  destruct (Ascii.eqb d c); [ | discriminate ].
  intros H. inversion H; subst. reflexivity.
Qed.

Lemma bounded_failed {A B} depth depth' max_digits s s' (f : failure) :
  bounded depth' max_digits s' (@Failed A f) ->
  String.length s' <= String.length s ->
  depth + String.length s' <= depth' + String.length s ->
  bounded depth max_digits s (@Failed B f).
Proof.
  destruct f as [ | c t | ]; cbn; [ trivial | | trivial ].
  intros [[-> H] | [-> H]] Hlen Hdepth; [ left | right ]; split; try reflexivity; lia.
Qed.

Lemma scan_number_bounded depth max_digits s :
  bounded depth max_digits s (scan_number max_digits s).
Proof.
  unfold scan_number.
  pose proof (scan_sign_length s) as Hsign. destruct (scan_sign s) as [sign s1].
  destruct (scan_int s1) as [[int s2] | ] eqn:Hint; [ | exact I ].
  apply scan_int_length in Hint as [Hint Hpos].
  pose proof (scan_frac_length s2) as Hfrac. destruct (scan_frac s2) as [frac s3].
  pose proof (scan_exp_length s3) as Hexp. destruct (scan_exp s3) as [exp s4].
  cbn [snd] in *.
  destruct (is_empty frac && is_empty exp); [ | cbn; lia ].
  destruct (int_threshold <? String.length int); [ | cbn; lia ].
  destruct (0 <? max_digits) eqn:Hlimit; [ | cbn; lia ].
  destruct (max_digits <? String.length int) eqn:Hover; [ | cbn; lia ].
  apply Nat.ltb_lt in Hlimit, Hover. cbn. right. split; [ reflexivity | lia ].
Qed.

Lemma literal_bounded depth max_digits s :
  bounded depth max_digits s (literal max_digits s).
Proof.
  unfold literal.
  repeat match goal with
    | |- context [strip_prefix ?p s] =>
        let H := fresh "H" in
        destruct (strip_prefix p s) eqn:H;
          [ apply strip_prefix_length in H; simpl in H; cbn; lia | clear H ]
    | |- context [scan_number max_digits s] =>
        let H := fresh "H" in
        pose proof (scan_number_bounded depth max_digits s) as H;
        destruct (scan_number max_digits s) as [number r | [ | c t | ]];
          [ exact H | | exact H | destruct H ]
    end.
  exact I.
Qed.

Lemma scan_bounded fuel :
  (forall depth max_digits s,
     2 * String.length s < fuel ->
     bounded depth max_digits s (scan_once fuel depth max_digits s))
  /\ (forall depth max_digits d s,
        2 * String.length s < fuel ->
        bounded depth max_digits s (scan_members fuel depth max_digits d s))
  /\ (forall depth max_digits s,
        2 * String.length s + 1 < fuel ->
        bounded depth max_digits s (scan_items fuel depth max_digits s)).
Proof.
  induction fuel as [ | n (IHonce & IHmembers & IHitems) ].
  { repeat split; intros; lia. }
  split; [ | split ].
  - (* scan_once *)
    intros depth max_digits s Hfuel. cbn [scan_once].
    destruct s as [ | c s' ]; [ exact I | ].
    destruct (Ascii.eqb c dquote).
    { destruct (scanstring s') as [[text r] | ] eqn:Hs; [ | exact I ].
      apply scanstring_shorter in Hs. cbn. lia. }
    pose proof (skip_ws_length s') as Hws. cbn [String.length] in Hfuel.
    destruct (Ascii.eqb c "{").
    { destruct depth as [ | depth' ]; [ cbn; left; split; [ reflexivity | lia ] | ].
      destruct (expect "}" (skip_ws s')) as [r | ] eqn:Hclose.
      - apply expect_length in Hclose. cbn. lia.
      - assert (H := IHmembers depth' max_digits [] (skip_ws s') ltac:(lia)).
        destruct (scan_members n depth' max_digits [] (skip_ws s')) as [d r | f].
        + cbn in *. lia.
        + apply (bounded_failed _ _ _ _ _ _ H); cbn; lia. }
    destruct (Ascii.eqb c "[").
    { destruct depth as [ | depth' ]; [ cbn; left; split; [ reflexivity | lia ] | ].
      destruct (expect "]" (skip_ws s')) as [r | ] eqn:Hclose.
      - apply expect_length in Hclose. cbn. lia.
      - assert (H := IHitems depth' max_digits (skip_ws s') ltac:(lia)).
        destruct (scan_items n depth' max_digits (skip_ws s')) as [items r | f].
        + cbn in *. lia.
        + apply (bounded_failed _ _ _ _ _ _ H); cbn; lia. }
    apply literal_bounded.
  - (* scan_members *)
    intros depth max_digits d s Hfuel. cbn [scan_members].
    destruct (expect dquote s) as [s0 | ] eqn:Hopen; [ | exact I ].
    destruct (scanstring s0) as [[key r] | ] eqn:Hkey; [ | exact I ].
    destruct (expect ":" (skip_ws r)) as [r1 | ] eqn:Hcolon; [ | exact I ].
    apply expect_length in Hopen. apply scanstring_shorter in Hkey.
    pose proof (skip_ws_length r) as Lws1. apply expect_length in Hcolon.
    pose proof (skip_ws_length r1) as Lws2.
    assert (H := IHonce depth max_digits (skip_ws r1) ltac:(lia)).
    destruct (scan_once n depth max_digits (skip_ws r1)) as [value r2 | f].
    + cbn in H. pose proof (skip_ws_length r2) as Lws3. cbv zeta.
      destruct (expect "}" (skip_ws r2)) as [r3 | ] eqn:Hclose.
      * apply expect_length in Hclose. cbn. lia.
      * destruct (expect "," (skip_ws r2)) as [r3 | ] eqn:Hcomma; [ | exact I ].
        apply expect_length in Hcomma. pose proof (skip_ws_length r3) as Lws4.
        assert (H' := IHmembers depth max_digits (dict_set d key value) (skip_ws r3)
                        ltac:(lia)).
        destruct (scan_members n depth max_digits (dict_set d key value) (skip_ws r3))
          as [d' r4 | f].
        -- cbn in *. lia.
        -- apply (bounded_failed _ _ _ _ _ _ H'); lia.
    + apply (bounded_failed _ _ _ _ _ _ H); lia.
  - (* scan_items *)
    intros depth max_digits s Hfuel. cbn [scan_items].
    assert (H := IHonce depth max_digits s ltac:(lia)).
    destruct (scan_once n depth max_digits s) as [value r | f].
    + cbn in H. pose proof (skip_ws_length r) as Lws1.
      destruct (expect "]" (skip_ws r)) as [r1 | ] eqn:Hclose.
      * apply expect_length in Hclose. cbn. lia.
      * destruct (expect "," (skip_ws r)) as [r1 | ] eqn:Hcomma; [ | exact I ].
        apply expect_length in Hcomma. pose proof (skip_ws_length r1) as Lws2.
        assert (H' := IHitems depth max_digits (skip_ws r1) ltac:(lia)).
        destruct (scan_items n depth max_digits (skip_ws r1)) as [items r2 | f].
        -- cbn in *. lia.
        -- apply (bounded_failed _ _ _ _ _ _ H'); lia.
    + apply (bounded_failed _ _ _ _ _ _ H); lia.
Qed.

(** The fuel [loads] gives its scanner is never used up. *)
Lemma loads_finishes depth max_digits text :
  scan_once (2 * String.length text + 1) depth max_digits (skip_ws text)
  <> Failed Unfinished.
Proof.
  pose proof (skip_ws_length text) as Hws.
  assert (H := proj1 (scan_bounded (2 * String.length text + 1)) depth max_digits
                 (skip_ws text) ltac:(lia)).
  intros Heq. rewrite Heq in H. exact H.
Qed.

(** [json.loads] raises nothing but JSONDecodeError, a RecursionError on a
    text with more characters than the interpreter has levels left, and a
    ValueError on a text with more characters than [int] reads digits. *)
Lemma loads_errors depth max_digits text class_name message :
  loads depth max_digits text = OtherError class_name message ->
  (class_name = "RecursionError" /\ depth < String.length text)
  \/ (class_name = "ValueError" /\ 0 < max_digits < String.length text).
Proof.
  unfold loads. pose proof (skip_ws_length text) as Hws.
  assert (H := proj1 (scan_bounded (2 * String.length text + 1)) depth max_digits
                 (skip_ws text) ltac:(lia)).
  destruct (scan_once _ depth max_digits (skip_ws text)) as [value rest | [ | c t | ]].
  - destruct (is_empty (skip_ws rest)); discriminate.
  - discriminate.
  - intros Heq. inversion Heq; subst. cbn in H.
    destruct H as [[-> H] | [-> H]]; [ left | right ]; split; try reflexivity; lia.
  - discriminate.
Qed.

End JsonFacts.

(** ** Hook/argument registry *)

Lemma registry_nonempty (hook : Hook) :
  exists first others, registry_get HookArguments hook = Some (first :: others).
Proof. destruct hook; cbn; eauto. Qed.

Lemma registry_total (hook : Hook) :
  exists schema, registry_get HookArguments hook = Some schema.
Proof. destruct (registry_nonempty hook) as (first & others & H). eauto. Qed.

(** C7. For each of the five hooks the registry holds a non-empty argument
    list, in the wire order of the table: build_sdist takes (sdist_directory,
    config_settings); build_wheel takes (wheel_directory, config_settings,
    metadata_directory); prepare_metadata_for_build_wheel takes
    (metadata_directory, config_settings); each of the two get_requires hooks
    takes (config_settings). *)
Theorem HookArguments_table :
  registry_get HookArguments build_sdist = Some [sdist_directory; config_settings]
  /\ registry_get HookArguments build_wheel
     = Some [wheel_directory; config_settings; metadata_directory]
  /\ registry_get HookArguments prepare_metadata_for_build_wheel
     = Some [metadata_directory; config_settings]
  /\ registry_get HookArguments get_requires_for_build_sdist = Some [config_settings]
  /\ registry_get HookArguments get_requires_for_build_wheel = Some [config_settings]
  /\ (forall hook : Hook,
        exists first others, registry_get HookArguments hook = Some (first :: others)).
Proof.
  repeat split.
  exact registry_nonempty.
Qed.

(** ** No fatal fall-through *)

Create HintDb no_fatal.

Lemma no_fatal_ret {A} (a : A) : no_fatal (ret a).
Proof. intros w. reflexivity. Qed.

Lemma no_fatal_raise {A} (e : Exc) : is_FatalError e = false -> no_fatal (@raise A e).
Proof. intros He w. exact He. Qed.

Lemma no_fatal_lift {A} (r : result A) : raises_fatal r = false -> no_fatal (lift r).
Proof. intros Hr w. exact Hr. Qed.

Lemma no_fatal_bind {A B} (m : M A) (k : A -> M B) :
  no_fatal m -> (forall a, no_fatal (k a)) -> no_fatal (bind m k).
Proof.
  intros Hm Hk w. unfold bind. specialize (Hm w).
  destruct (m w) as [[a | e] w']; simpl in *.
  - apply Hk.
  - exact Hm.
Qed.

Lemma no_fatal_print l : no_fatal (print l).
Proof. intros w. reflexivity. Qed.

Lemma no_fatal_send_expect name : no_fatal (send_expect name).
Proof. apply no_fatal_print. Qed.

Lemma no_fatal_readline : no_fatal readline.
Proof.
  intros w. unfold readline. destruct (stdin_readable w); [ | reflexivity ].
  destruct (readline_split (stdin w)). reflexivity.
Qed.

#[local] Hint Resolve no_fatal_ret no_fatal_raise no_fatal_lift no_fatal_print
  no_fatal_send_expect no_fatal_readline : no_fatal.

Ltac no_fatal_step :=
  first [ solve [ auto with no_fatal ] | apply no_fatal_bind; [ | intros ? ] ].

Lemma no_fatal_read_stripped : no_fatal read_stripped.
Proof. unfold read_stripped. repeat no_fatal_step. Qed.

#[local] Hint Resolve no_fatal_read_stripped : no_fatal.

Lemma no_fatal_parse_path : no_fatal parse_path.
Proof. unfold parse_path. repeat no_fatal_step. Qed.

Lemma no_fatal_parse_optional_path : no_fatal parse_optional_path.
Proof.
  unfold parse_optional_path. no_fatal_step; [ auto with no_fatal | ].
  destruct (is_empty a); auto with no_fatal.
Qed.

Lemma no_fatal_parse_config_settings py : no_fatal (parse_config_settings py).
Proof.
  unfold parse_config_settings. no_fatal_step; [ auto with no_fatal | ].
  destruct (is_empty a); [ auto with no_fatal | ].
  destruct (JsonDecoder.loads _ _ a); auto with no_fatal.
Qed.

#[local] Hint Resolve no_fatal_parse_path no_fatal_parse_optional_path
  no_fatal_parse_config_settings : no_fatal.

(** Every argument kind meets one of the four tests of the chain. *)
Lemma no_fatal_parse_hook_argument (py : Interpreter) (hook_arg : HookArgument) :
  no_fatal (parse_hook_argument py hook_arg).
Proof.
  destruct hook_arg; unfold parse_hook_argument;
    repeat match goal with
      | |- context [ArgEnum.eqb ?a ?b] =>
          let v := eval vm_compute in (ArgEnum.eqb a b) in
          change (ArgEnum.eqb a b) with v
      end; cbv iota; repeat no_fatal_step.
Qed.

Lemma no_fatal_for_each {A B} (f : A -> M B) (xs : list A) :
  (forall x, no_fatal (f x)) -> no_fatal (for_each f xs).
Proof.
  intros Hf. induction xs as [ | x xs IH ]; simpl.
  - apply no_fatal_ret.
  - apply no_fatal_bind; [ apply Hf | intros y ].
    apply no_fatal_bind; [ exact IH | intros ys ]. apply no_fatal_ret.
Qed.

Section NoFatalSession.
Variable py : Interpreter.

Lemma import_not_fatal name : raises_fatal (import_ py name) = false.
Proof. unfold import_. destruct (import_module py name); reflexivity. Qed.

Lemma import_raises_builtin name e :
  import_ py name = Raise e -> exists c t, e = Builtin c t.
Proof.
  unfold import_. destruct (import_module py name); intros H; inversion H; eauto.
Qed.

Lemma load_backend_not_fatal raw module_name attribute :
  raises_fatal (load_backend py raw module_name attribute) = false.
Proof.
  unfold load_backend, result_bind.
  destruct (import_ py module_name) as [m | e] eqn:Himp.
  - destruct attribute as [a | ]; [ destruct (getattr py m a) | ]; reflexivity.
  - destruct (import_raises_builtin _ _ Himp) as (c & t & ->).
    destruct (is_ImportError (Builtin c t)); [ | reflexivity ].
    destruct (contains "." module_name); [ | reflexivity ]. cbn [negb].
    destruct (rsplit1 "." module_name) as [[parent_name child_name] | ]; [ | reflexivity ].
    destruct (import_ py parent_name) as [m | e] eqn:Hparent.
    + destruct (getattr py m child_name); [ | reflexivity ].
      destruct attribute as [a | ]; [ destruct (getattr py m a) | ]; reflexivity.
    + destruct (import_raises_builtin _ _ Hparent) as (c' & t' & ->).
      destruct (is_ImportError (Builtin c' t')); reflexivity.
Qed.

Lemma resolve_backend_not_fatal raw : raises_fatal (resolve_backend py raw) = false.
Proof.
  unfold resolve_backend.
  destruct (split ":" raw) as [ | module_name [ | attribute [ | ] ] ];
    try reflexivity.
  - apply load_backend_not_fatal.
  - destruct (is_empty attribute); [ reflexivity | apply load_backend_not_fatal ].
Qed.

Lemma no_fatal_parse_build_backend_cached raw : no_fatal (_parse_build_backend py raw).
Proof.
  intros w. unfold _parse_build_backend.
  destruct (backend_cache w !! raw); [ reflexivity | ].
  pose proof (resolve_backend_not_fatal raw) as H.
  destruct (resolve_backend py raw); [ reflexivity | exact H ].
Qed.

Lemma no_fatal_parse_build_backend : no_fatal (parse_build_backend py).
Proof.
  unfold parse_build_backend.
  apply no_fatal_bind; [ apply no_fatal_read_stripped | intros raw ].
  apply no_fatal_bind; [ apply no_fatal_parse_build_backend_cached | intros b ].
  apply no_fatal_ret.
Qed.

Lemma no_fatal_parse_hook_name : no_fatal parse_hook_name.
Proof.
  unfold parse_hook_name.
  apply no_fatal_bind; [ apply no_fatal_read_stripped | intros name ].
  apply no_fatal_lift. unfold HookFromStr.from_str.
  destruct (HookEnum.lookup name); reflexivity.
Qed.

Lemma no_fatal_parse argument : no_fatal (parse py argument).
Proof.
  unfold parse.
  apply no_fatal_bind; [ apply no_fatal_send_expect | intros _ ].
  apply no_fatal_parse_hook_argument.
Qed.

Lemma no_fatal_call_hook hook args : no_fatal (call_hook py hook args).
Proof.
  intros w. unfold call_hook.
  destruct (call py hook args (fs w)) as [[text | c t] f]; [ reflexivity | ].
  destruct (is_termination (Builtin c t)); reflexivity.
Qed.

Lemma no_fatal_run_once : no_fatal (run_once py).
Proof.
  unfold run_once.
  apply no_fatal_bind; [ apply no_fatal_send_expect | intros _ ].
  apply no_fatal_bind; [ apply no_fatal_parse_build_backend | intros resolved ].
  apply no_fatal_bind; [ apply no_fatal_send_expect | intros _ ].
  apply no_fatal_bind; [ apply no_fatal_parse_hook_name | intros hook_name ].
  destruct (registry_total hook_name) as [schema ->].
  apply no_fatal_bind; [ apply no_fatal_for_each, no_fatal_parse | intros args ].
  apply no_fatal_bind; [ apply no_fatal_print | intros _ ].
  apply no_fatal_bind.
  - destruct (getattr py (fst resolved) (HookEnum.name hook_name));
      [ apply no_fatal_ret | apply no_fatal_raise; reflexivity ].
  - intros hook.
    apply no_fatal_bind; [ apply no_fatal_print | intros _ ].
    apply no_fatal_bind; [ apply no_fatal_call_hook | intros text ].
    apply no_fatal_print.
Qed.

End NoFatalSession.

(** C10. Every hook has an entry in the argument registry, and every
    argument kind of its schema meets one of the tests of the parser chain;
    so neither [parse_hook_argument] nor a whole [run_once] ever raises a
    [FatalError]: the branches "No arguments defined for hook" and "No parser
    for hook argument kind" are not reached, whatever the input. *)
Theorem fatal_branches_unreachable :
  (forall hook : Hook,
     exists schema,
       registry_get HookArguments hook = Some schema
       /\ Forall (fun hook_arg =>
                    forall (py : Interpreter) (w : World),
                      raises_fatal (fst (parse_hook_argument py hook_arg w)) = false)
                 schema)
  /\ (forall (py : Interpreter) (w : World), raises_fatal (fst (run_once py w)) = false).
Proof.
  split.
  - intros hook. destruct (registry_total hook) as [schema Hschema].
    exists schema. split; [ exact Hschema | ].
    apply Forall_forall. intros hook_arg _ py w.
    apply no_fatal_parse_hook_argument.
  - intros py w. apply no_fatal_run_once.
Qed.

(** ** Session loop *)

Section SessionFacts.
Variable py : Interpreter.

Lemma parse_action_readable w :
  stdin_readable w = true ->
  parse_action w
  = (ActionFromStr.from_str (first_line (stdin w)),
     set_stdin (snd (readline_split (stdin w))) w).
Proof.
  intros Hr. unfold parse_action, bind. rewrite (read_stripped_readable _ Hr).
  unfold lift. reflexivity.
Qed.

(** The [try] block of a turn whose action line is [shutdown]. *)
Lemma main_try_shutdown w :
  stdin_readable w = true ->
  first_line (stdin w) = "shutdown" ->
  main_try py w
  = (Return true,
     set_stdout (stdout w ++ [Line "READY"; Line "EXPECT action"; Line "SHUTDOWN"])
       (set_stdin (snd (readline_split (stdin w))) w)).
Proof.
  intros Hr Hline. unfold main_try, bind at 1. rewrite Hr. cbn [negb].
  unfold bind at 1, ret at 1. unfold bind at 1, send_ready, print at 1.
  unfold bind at 1, send_expect, print at 1.
  unfold bind at 1. rewrite parse_action_readable by exact Hr.
  cbn [stdin set_stdout]. rewrite Hline. cbn.
  unfold set_stdout, set_stdin. cbn. rewrite <- !app_assoc. reflexivity.
Qed.

End SessionFacts.

(** C8. A session whose first input line is the action [shutdown] prints
    exactly READY, EXPECT action, SHUTDOWN, in that order; [main] then
    returns, so the process ends with success status; no EXPECT build-backend
    line is among the lines printed. *)
Theorem shutdown_first (py : Interpreter) (w : World) (turns : nat) :
  stdin_readable w = true ->
  first_line (stdin w) = "shutdown" ->
  exists w',
    main py (S turns) w = Some (Success, w')
    /\ stdout w' = stdout w ++ [Line "READY"; Line "EXPECT action"; Line "SHUTDOWN"]
    /\ ~ In (Line "EXPECT build-backend")
           [Line "READY"; Line "EXPECT action"; Line "SHUTDOWN"].
Proof.
  intros Hr Hline. eexists. split; [ | split ].
  - cbn [main]. unfold main_turn. rewrite (main_try_shutdown py w Hr Hline).
    reflexivity.
  - reflexivity.
  - intros [H | [H | [H | []]]]; discriminate H.
Qed.

Lemma shutdown_first_witness :
  exists w',
    main Demo.py 1 (Demo.start (Demo.lines ["shutdown"])) = Some (Success, w')
    /\ stdout w'
       = stdout (Demo.start (Demo.lines ["shutdown"]))
         ++ [Line "READY"; Line "EXPECT action"; Line "SHUTDOWN"]
    /\ ~ In (Line "EXPECT build-backend")
           [Line "READY"; Line "EXPECT action"; Line "SHUTDOWN"].
Proof.
  apply (shutdown_first Demo.py (Demo.start (Demo.lines ["shutdown"])) 0);
    reflexivity.
Defined.

(** ** Argument decoders *)

Lemma parse_path_line w line rest :
  stdin_readable w = true ->
  contains nl line = false ->
  stdin w = line +:+ String nl rest ->
  parse_path w = (Return (Path line), set_stdin rest w).
Proof.
  intros Hr Hnl Hin. unfold parse_path, bind.
  rewrite (read_stripped_line _ _ _ Hr Hnl Hin). reflexivity.
Qed.

Lemma parse_optional_path_line w line rest :
  stdin_readable w = true ->
  contains nl line = false ->
  stdin w = line +:+ String nl rest ->
  parse_optional_path w
  = (Return (if is_empty line then None else Some (Path line)), set_stdin rest w).
Proof.
  intros Hr Hnl Hin. unfold parse_optional_path, bind.
  rewrite (read_stripped_line _ _ _ Hr Hnl Hin).
  destruct (is_empty line); reflexivity.
Qed.

Lemma parse_config_settings_line py w line rest :
  stdin_readable w = true ->
  contains nl line = false ->
  stdin w = line +:+ String nl rest ->
  parse_config_settings py w
  = (if is_empty line then Return None
     else match JsonDecoder.loads (recursion_headroom py) (int_max_str_digits py) line with
          | JsonDecoder.Decoded v => Return (Some v)
          | JsonDecoder.JSONDecodeError => Raise (MalformedHookArgument line config_settings)
          | JsonDecoder.OtherError class_name text => Raise (Builtin class_name text)
          end,
     set_stdin rest w).
Proof.
  intros Hr Hnl Hin. unfold parse_config_settings, bind.
  rewrite (read_stripped_line _ _ _ Hr Hnl Hin).
  destruct (is_empty line); [ reflexivity | ].
  destruct (JsonDecoder.loads _ _ line); reflexivity.
Qed.

(** C5, as the code has it: an empty line for wheel_directory (and for
    sdist_directory) is not rejected; it is decoded as the path of the empty
    text. *)
Lemma empty_required_path_is_decoded :
  fst (parse_hook_argument Demo.py wheel_directory (Demo.start (Demo.lines [EmptyString])))
  = Return (APath (Path EmptyString))
  /\ fst (parse_hook_argument Demo.py sdist_directory
            (Demo.start (Demo.lines [EmptyString])))
     = Return (APath (Path EmptyString)).
Proof. split; reflexivity. Qed.

(** C5, amended. For wheel_directory and sdist_directory every input line,
    empty or not, is decoded as the path of its text and none is rejected;
    for metadata_directory an empty line decodes to absent and any other line
    to the path of its text. The decoders consume the line and nothing else,
    and no check of existence is made: the result is the same whatever the
    file system holds. *)
Theorem path_arguments_decode (py : Interpreter) (w : World) (line rest : string) :
  stdin_readable w = true ->
  contains nl line = false ->
  stdin w = line +:+ String nl rest ->
  parse_hook_argument py wheel_directory w = (Return (APath (Path line)), set_stdin rest w)
  /\ parse_hook_argument py sdist_directory w
     = (Return (APath (Path line)), set_stdin rest w)
  /\ parse_hook_argument py metadata_directory w
     = (Return (if is_empty line then ANone else APath (Path line)), set_stdin rest w)
  /\ (forall (kind : HookArgument) (files : FileSystem),
        fst (parse_hook_argument py kind (set_fs files w))
        = fst (parse_hook_argument py kind w)).
Proof.
  intros Hr Hnl Hin.
  assert (Hpath : parse_path w = (Return (Path line), set_stdin rest w))
    by exact (parse_path_line _ _ _ Hr Hnl Hin).
  assert (Hopt := parse_optional_path_line _ _ _ Hr Hnl Hin).
  repeat split.
  - unfold parse_hook_argument. cbn [ArgEnum.eqb ArgEnum.name String.eqb Ascii.eqb Bool.eqb].
    unfold bind. rewrite Hpath. reflexivity.
  - unfold parse_hook_argument. cbn [ArgEnum.eqb ArgEnum.name String.eqb Ascii.eqb Bool.eqb].
    unfold bind. rewrite Hpath. reflexivity.
  - unfold parse_hook_argument. cbn [ArgEnum.eqb ArgEnum.name String.eqb Ascii.eqb Bool.eqb].
    unfold bind. rewrite Hopt. destruct (is_empty line); reflexivity.
  - intros kind files.
    assert (Hr' : stdin_readable (set_fs files w) = true) by exact Hr.
    assert (Hin' : stdin (set_fs files w) = line +:+ String nl rest) by exact Hin.
    destruct kind; unfold parse_hook_argument;
      cbn [ArgEnum.eqb ArgEnum.name String.eqb Ascii.eqb Bool.eqb]; unfold bind.
    + rewrite Hpath, (parse_path_line _ _ _ Hr' Hnl Hin'). reflexivity.
    + rewrite (parse_config_settings_line py _ _ _ Hr Hnl Hin),
        (parse_config_settings_line py _ _ _ Hr' Hnl Hin').
      destruct (is_empty line); [ reflexivity | ].
      destruct (JsonDecoder.loads _ _ line); reflexivity.
    + rewrite Hopt, (parse_optional_path_line _ _ _ Hr' Hnl Hin').
      destruct (is_empty line); reflexivity.
    + rewrite Hpath, (parse_path_line _ _ _ Hr' Hnl Hin'). reflexivity.
Qed.

Lemma path_arguments_decode_witness :
  parse_hook_argument Demo.py wheel_directory (Demo.start (Demo.lines ["/tmp/out"; "{}"]))
  = (Return (APath (Path "/tmp/out")),
     set_stdin (Demo.lines ["{}"]) (Demo.start (Demo.lines ["/tmp/out"; "{}"])))
  /\ parse_hook_argument Demo.py sdist_directory
       (Demo.start (Demo.lines ["/tmp/out"; "{}"]))
     = (Return (APath (Path "/tmp/out")),
        set_stdin (Demo.lines ["{}"]) (Demo.start (Demo.lines ["/tmp/out"; "{}"])))
  /\ parse_hook_argument Demo.py metadata_directory
       (Demo.start (Demo.lines ["/tmp/out"; "{}"]))
     = (Return (APath (Path "/tmp/out")),
        set_stdin (Demo.lines ["{}"]) (Demo.start (Demo.lines ["/tmp/out"; "{}"])))
  /\ (forall (kind : HookArgument) (files : FileSystem),
        fst (parse_hook_argument Demo.py kind
               (set_fs files (Demo.start (Demo.lines ["/tmp/out"; "{}"]))))
        = fst (parse_hook_argument Demo.py kind
                 (Demo.start (Demo.lines ["/tmp/out"; "{}"])))).
Proof.
  apply (path_arguments_decode Demo.py
           (Demo.start (Demo.lines ["/tmp/out"; "{}"])) "/tmp/out" (Demo.lines ["{}"]));
    reflexivity.
Defined.

(** C2, as the code has it: a line that is a JSON document but no mapping of
    strings is decoded and returned; nothing is raised for it. A list, and a
    mapping with a number as a value, serve as examples. *)
Lemma non_mapping_document_is_decoded :
  fst (parse_config_settings Demo.py (Demo.start (Demo.lines ["[1, 2]"])))
  = Return (Some (JArray [JInt 1; JInt 2]))
  /\ is_StringDict (JArray [JInt 1; JInt 2]) = false
  /\ fst (parse_config_settings Demo.py
            (Demo.start (Demo.lines [Demo.json_text "{'jobs': 4}"])))
     = Return (Some (JObject [("jobs", JInt 4)]))
  /\ is_StringDict (JObject [("jobs", JInt 4)]) = false.
Proof. repeat split; vm_compute; reflexivity. Qed.

(** C2, amended. For a non-empty config_settings line, decoding returns
    what [json.loads] makes of the line, whatever its shape (a mapping of
    strings or not). It raises MalformedHookArgument, whose raw text is the
    line and whose argument is config_settings, exactly when [json.loads]
    raises JSONDecodeError, that is when the line is not JSON. The only
    other errors are the two that [json.loads] raises at a limit of the
    interpreter and that the decoder does not catch: a RecursionError, only
    for a line of more characters than the lists and objects the interpreter
    can still nest, and a ValueError, only for a line of more characters than
    the digits [int] reads. *)
Theorem config_settings_decode (py : Interpreter) (w : World) (line rest : string) :
  stdin_readable w = true ->
  contains nl line = false ->
  is_empty line = false ->
  stdin w = line +:+ String nl rest ->
  parse_config_settings py w
  = (match JsonDecoder.loads (recursion_headroom py) (int_max_str_digits py) line with
     | JsonDecoder.Decoded document => Return (Some document)
     | JsonDecoder.JSONDecodeError => Raise (MalformedHookArgument line config_settings)
     | JsonDecoder.OtherError class_name text => Raise (Builtin class_name text)
     end,
     set_stdin rest w)
  /\ (fst (parse_config_settings py w) = Raise (MalformedHookArgument line config_settings)
      <-> JsonDecoder.loads (recursion_headroom py) (int_max_str_digits py) line
          = JsonDecoder.JSONDecodeError)
  /\ (forall e,
        fst (parse_config_settings py w) = Raise e ->
        e = MalformedHookArgument line config_settings
        \/ (exists text,
              e = Builtin "RecursionError" text
              /\ recursion_headroom py < String.length line)
        \/ (exists text,
              e = Builtin "ValueError" text
              /\ 0 < int_max_str_digits py < String.length line)).
Proof.
  intros Hr Hnl Hne Hin.
  pose proof (parse_config_settings_line py _ _ _ Hr Hnl Hin) as H.
  rewrite Hne in H. rewrite H. cbn [fst].
  pose proof (JsonFacts.loads_errors (recursion_headroom py) (int_max_str_digits py) line)
    as Hlimits.
  destruct (JsonDecoder.loads (recursion_headroom py) (int_max_str_digits py) line)
    as [document | | class_name text].
  - split; [ reflexivity | split ]; [ split; discriminate | discriminate ].
  - split; [ reflexivity | split ]; [ split; reflexivity | ].
    intros e He. inversion He. left. reflexivity.
  - split; [ reflexivity | split ]; [ split; discriminate | ].
    intros e He. inversion He; subst.
    destruct (Hlimits class_name text eq_refl) as [[-> Hdeep] | [-> Hlong]].
    + right. left. exists text. split; [ reflexivity | exact Hdeep ].
    + right. right. exists text. split; [ reflexivity | exact Hlong ].
Qed.

Lemma config_settings_decode_witness :
  parse_config_settings Demo.py (Demo.start (Demo.lines ["{bad"]))
  = (match JsonDecoder.loads (recursion_headroom Demo.py) (int_max_str_digits Demo.py)
             "{bad" with
     | JsonDecoder.Decoded document => Return (Some document)
     | JsonDecoder.JSONDecodeError => Raise (MalformedHookArgument "{bad" config_settings)
     | JsonDecoder.OtherError class_name text => Raise (Builtin class_name text)
     end,
     set_stdin (Demo.lines []) (Demo.start (Demo.lines ["{bad"])))
  /\ (fst (parse_config_settings Demo.py (Demo.start (Demo.lines ["{bad"])))
      = Raise (MalformedHookArgument "{bad" config_settings)
      <-> JsonDecoder.loads (recursion_headroom Demo.py) (int_max_str_digits Demo.py) "{bad"
          = JsonDecoder.JSONDecodeError)
  /\ (forall e,
        fst (parse_config_settings Demo.py (Demo.start (Demo.lines ["{bad"]))) = Raise e ->
        e = MalformedHookArgument "{bad" config_settings
        \/ (exists text,
              e = Builtin "RecursionError" text
              /\ recursion_headroom Demo.py < String.length "{bad")
        \/ (exists text,
              e = Builtin "ValueError" text
              /\ 0 < int_max_str_digits Demo.py < String.length "{bad")).
Proof.
  apply (config_settings_decode Demo.py (Demo.start (Demo.lines ["{bad"])) "{bad"
           (Demo.lines []));
    reflexivity.
Defined.

Example config_settings_bad :
  fst (parse_config_settings Demo.py (Demo.start (Demo.lines ["{bad"])))
  = Raise (MalformedHookArgument "{bad" config_settings).
Proof. vm_compute. reflexivity. Qed.

Example config_settings_empty_mapping :
  fst (parse_config_settings Demo.py (Demo.start (Demo.lines ["{}"])))
  = Return (Some (JObject []))
  /\ fst (parse_config_settings Demo.py (Demo.start (Demo.lines [EmptyString])))
     = Return None.
Proof. split; vm_compute; reflexivity. Qed.

Example config_settings_nested :
  fst (parse_config_settings Demo.py
         (Demo.start (Demo.lines [Demo.json_text "{'a': {'b': 'c'}, 'd': 'e'}"])))
  = Return (Some (JObject [("a", JObject [("b", JString "c")]); ("d", JString "e")])).
Proof. vm_compute. reflexivity. Qed.

(** A number of 4301 digits is JSON, yet no value comes back and no
    MalformedHookArgument either: [int] refuses it. With a point it is a
    [float], which has no such limit. *)
Example config_settings_too_many_digits :
  fst (parse_config_settings Demo.py (Demo.start (Demo.lines [times 4301 "1"])))
  = Raise (Builtin "ValueError"
             "Exceeds the limit (4300 digits) for integer string conversion: value has 4301 digits; use sys.set_int_max_str_digits() to increase the limit")
  /\ fst (parse_config_settings Demo.py
            (Demo.start (Demo.lines [times 4301 "1" +:+ ".5"])))
     = Return (Some (JFloat (times 4301 "1" +:+ ".5"))).
Proof. split; vm_compute; reflexivity. Qed.

(** Lists nested one deeper than the interpreter can recurse are refused
    on the way in, whatever follows. *)
Example config_settings_too_deep :
  fst (parse_config_settings Demo.py (Demo.start (Demo.lines [times 991 "["])))
  = Raise (Builtin "RecursionError"
             "maximum recursion depth exceeded while decoding a JSON array from a unicode string")
  /\ fst (parse_config_settings Demo.py (Demo.start (Demo.lines [times 990 "["])))
     = Raise (MalformedHookArgument (times 990 "[") config_settings).
Proof. split; vm_compute; reflexivity. Qed.

(** Escapes of a surrogate pair give the one character they stand for. *)
Example config_settings_surrogate_pair :
  JsonDecoder.loads 990 4300 (Demo.json_text "'\ud83d\ude00'")
  = JsonDecoder.Decoded
      (JString (String "240" (String "159" (String "152" (String "128" EmptyString))))).
Proof. vm_compute. reflexivity. Qed.

(** ** Backend resolver: the cache *)

Section CacheFacts.
Variable py : Interpreter.

Lemma cached_hit raw backend w :
  backend_cache w !! raw = Some backend ->
  _parse_build_backend py raw w = (Return backend, w).
Proof. intros H. unfold _parse_build_backend. rewrite H. reflexivity. Qed.

Lemma cached_miss raw w :
  backend_cache w !! raw = None ->
  _parse_build_backend py raw w
  = match resolve_backend py raw with
    | Return backend =>
        (Return backend, set_backend_cache (<[raw := backend]> (backend_cache w)) w)
    | Raise e => (Raise e, w)
    end.
Proof. intros H. unfold _parse_build_backend. rewrite H. reflexivity. Qed.

(** A successful resolution leaves its handle in the cache. *)
Lemma resolved_is_stored raw backend w w1 :
  _parse_build_backend py raw w = (Return backend, w1) ->
  backend_cache w1 !! raw = Some backend.
Proof.
  unfold _parse_build_backend.
  destruct (backend_cache w !! raw) as [b | ] eqn:Hc.
  - intros H. inversion H; subst. exact Hc.
  - destruct (resolve_backend py raw) as [b | e]; intros H; inversion H; subst.
    cbn. apply lookup_insert_eq.
Qed.

(** No resolution removes or replaces an entry. *)
Lemma resolution_keeps_entries raw w :
  backend_cache w ⊆ backend_cache (snd (_parse_build_backend py raw w)).
Proof.
  unfold _parse_build_backend.
  destruct (backend_cache w !! raw) as [b | ] eqn:Hc; [ reflexivity | ].
  destruct (resolve_backend py raw) as [b | e]; [ | reflexivity ].
  cbn. apply insert_subseteq, Hc.
Qed.

Lemma resolution_keeps_other raw other w :
  other <> raw ->
  backend_cache (snd (_parse_build_backend py other w)) !! raw = backend_cache w !! raw.
Proof.
  intros Hne. unfold _parse_build_backend.
  destruct (backend_cache w !! other) as [b | ]; [ reflexivity | ].
  destruct (resolve_backend py other) as [b | e]; [ | reflexivity ].
  cbn. apply lookup_insert_ne, Hne.
Qed.

Lemma parse_build_backend_empty_line w :
  stdin_readable w = true ->
  first_line (stdin w) = EmptyString ->
  parse_build_backend py w
  = (match fst (_parse_build_backend py default_backend
                  (set_stdin (snd (readline_split (stdin w))) w)) with
     | Return backend => Return (backend, default_backend)
     | Raise e => Raise e
     end,
     snd (_parse_build_backend py default_backend
            (set_stdin (snd (readline_split (stdin w))) w))).
Proof.
  intros Hr Hline. unfold parse_build_backend, bind at 1.
  rewrite (read_stripped_readable _ Hr), Hline. cbn [is_empty]. unfold bind.
  destruct (_parse_build_backend py default_backend _) as [[b | e] w']; reflexivity.
Qed.

End CacheFacts.

Lemma keeps_cache_bind {A B} (m : M A) (k : A -> M B) :
  keeps_cache m -> (forall a, keeps_cache (k a)) -> keeps_cache (bind m k).
Proof.
  intros Hm Hk w. unfold bind. specialize (Hm w).
  destruct (m w) as [[a | e] w']; cbn [snd] in *.
  - etransitivity; [ exact Hm | apply Hk ].
  - exact Hm.
Qed.

Lemma keeps_cache_same {A} (m : M A) :
  (forall w, backend_cache (snd (m w)) = backend_cache w) -> keeps_cache m.
Proof. intros H w. rewrite H. reflexivity. Qed.

Lemma keeps_cache_ret {A} (a : A) : keeps_cache (ret a).
Proof. apply keeps_cache_same. reflexivity. Qed.

Lemma keeps_cache_raise {A} (e : Exc) : keeps_cache (@raise A e).
Proof. apply keeps_cache_same. reflexivity. Qed.

Lemma keeps_cache_lift {A} (r : result A) : keeps_cache (lift r).
Proof. apply keeps_cache_same. reflexivity. Qed.

Lemma keeps_cache_print l : keeps_cache (print l).
Proof. apply keeps_cache_same. reflexivity. Qed.

Lemma keeps_cache_readline : keeps_cache readline.
Proof.
  apply keeps_cache_same. intros w. unfold readline.
  destruct (stdin_readable w); [ | reflexivity ].
  destruct (readline_split (stdin w)). reflexivity.
Qed.

Create HintDb keeps_cache.
#[local] Hint Resolve keeps_cache_ret keeps_cache_raise keeps_cache_lift
  keeps_cache_print keeps_cache_readline : keeps_cache.

Ltac keeps_cache_step :=
  first [ solve [ auto with keeps_cache ]
        | apply keeps_cache_bind; [ | intros ? ]
        | match goal with
          | |- keeps_cache (if ?c then _ else _) => destruct c
          | |- keeps_cache (match ?x with _ => _ end) => destruct x
          end ].

Lemma keeps_cache_read_stripped : keeps_cache read_stripped.
Proof. unfold read_stripped. repeat keeps_cache_step. Qed.

#[local] Hint Resolve keeps_cache_read_stripped : keeps_cache.

Lemma keeps_cache_parse_hook_argument py hook_arg :
  keeps_cache (parse_hook_argument py hook_arg).
Proof.
  unfold parse_hook_argument, parse_path, parse_optional_path, parse_config_settings.
  repeat keeps_cache_step.
Qed.

Lemma keeps_cache_for_each {A B} (f : A -> M B) (xs : list A) :
  (forall x, keeps_cache (f x)) -> keeps_cache (for_each f xs).
Proof.
  intros Hf. induction xs as [ | x xs IH ]; simpl.
  - apply keeps_cache_ret.
  - apply keeps_cache_bind; [ apply Hf | intros y ].
    apply keeps_cache_bind; [ exact IH | intros ys ]. apply keeps_cache_ret.
Qed.

Section CacheSession.
Variable py : Interpreter.

Lemma keeps_cache_parse_build_backend : keeps_cache (parse_build_backend py).
Proof.
  unfold parse_build_backend.
  apply keeps_cache_bind; [ apply keeps_cache_read_stripped | intros raw ].
  apply keeps_cache_bind; [ | intros b; apply keeps_cache_ret ].
  intros w. apply resolution_keeps_entries.
Qed.

Lemma keeps_cache_call_hook hook args : keeps_cache (call_hook py hook args).
Proof.
  apply keeps_cache_same. intros w. unfold call_hook.
  destruct (call py hook args (fs w)) as [[text | c t] f]; [ reflexivity | ].
  destruct (is_termination (Builtin c t)); reflexivity.
Qed.

Lemma keeps_cache_run_once : keeps_cache (run_once py).
Proof.
  unfold run_once, send_expect, send_ok, parse_hook_name, parse.
  apply keeps_cache_bind; [ apply keeps_cache_print | intros _ ].
  apply keeps_cache_bind; [ apply keeps_cache_parse_build_backend | intros resolved ].
  apply keeps_cache_bind; [ apply keeps_cache_print | intros _ ].
  apply keeps_cache_bind; [ repeat keeps_cache_step | intros hook_name ].
  destruct (registry_get HookArguments hook_name) as [schema | ];
    [ | apply keeps_cache_raise ].
  apply keeps_cache_bind.
  { apply keeps_cache_for_each. intros argument.
    apply keeps_cache_bind; [ apply keeps_cache_print | intros _ ].
    apply keeps_cache_parse_hook_argument. }
  intros args.
  apply keeps_cache_bind; [ apply keeps_cache_print | intros _ ].
  apply keeps_cache_bind; [ repeat keeps_cache_step | intros hook ].
  apply keeps_cache_bind; [ apply keeps_cache_print | intros _ ].
  apply keeps_cache_bind; [ apply keeps_cache_call_hook | intros text ].
  apply keeps_cache_print.
Qed.

Lemma keeps_cache_main_try : keeps_cache (main_try py).
Proof.
  unfold main_try, send_ready, send_expect, send_shutdown, parse_action.
  apply keeps_cache_bind; [ apply keeps_cache_same; reflexivity | intros readable ].
  apply keeps_cache_bind; [ repeat keeps_cache_step | intros _ ].
  apply keeps_cache_bind; [ apply keeps_cache_print | intros _ ].
  apply keeps_cache_bind; [ apply keeps_cache_print | intros _ ].
  apply keeps_cache_bind; [ repeat keeps_cache_step | intros action ].
  destruct (ActionEnum.eqb action shutdown).
  - repeat keeps_cache_step.
  - apply keeps_cache_bind; [ apply keeps_cache_run_once | intros _ ].
    repeat keeps_cache_step.
Qed.

Lemma keeps_cache_send_error exc : keeps_cache (send_error py exc).
Proof. unfold send_error. repeat keeps_cache_step. Qed.

Lemma keeps_cache_send_fatal exc : keeps_cache (send_fatal py exc).
Proof. unfold send_fatal. repeat keeps_cache_step. Qed.

Lemma main_turn_keeps_cache w :
  backend_cache w ⊆ backend_cache (snd (main_turn py w)).
Proof.
  unfold main_turn. pose proof (keeps_cache_main_try w) as Htry.
  destruct (main_try py w) as [[[ | ] | exc] w']; cbn [snd] in Htry.
  - exact Htry.
  - destruct (DEBUG_ON py); exact Htry.
  - destruct (is_HookdError exc).
    + pose proof (keeps_cache_send_error exc w') as Hs.
      destruct (send_error py exc w') as [[[] | e] w'']; cbn [snd] in Hs;
        [ destruct (DEBUG_ON py) | ]; cbn [snd]; etransitivity; eauto.
    + pose proof (keeps_cache_send_fatal exc w') as Hs.
      destruct (send_fatal py exc w') as [[[] | e] w'']; cbn [snd] in *;
        etransitivity; eauto.
Qed.

(** However long the session runs, the cache only gains entries. *)
Lemma main_keeps_cache turns w ending w' :
  main py turns w = Some (ending, w') -> backend_cache w ⊆ backend_cache w'.
Proof.
  revert w. induction turns as [ | n IH ]; intros w; [ discriminate | ].
  cbn [main]. pose proof (main_turn_keeps_cache w) as Hturn.
  destruct (main_turn py w) as [[ | | e] w1]; cbn [snd] in Hturn; intros H.
  - etransitivity; [ exact Hturn | exact (IH _ H) ].
  - inversion H; subst. exact Hturn.
  - inversion H; subst. exact Hturn.
Qed.

End CacheSession.

(** C6, as the code has it: a different string can return the handle that a
    previous string has in the cache. After [setuptools.build_meta] has been
    resolved and cached, [setuptools:build_meta] resolves to the very same
    object. *)
Lemma different_spec_same_handle :
  backend_cache
    (snd (_parse_build_backend Demo.py "setuptools.build_meta" (Demo.start EmptyString)))
    !! "setuptools.build_meta" = Some 2%positive
  /\ fst (_parse_build_backend Demo.py "setuptools:build_meta"
            (snd (_parse_build_backend Demo.py "setuptools.build_meta"
                    (Demo.start EmptyString))))
     = Return 2%positive.
Proof. split; vm_compute; reflexivity. Qed.

(** C6, amended. Once a backend string has been resolved, resolving the same
    string again in the same process returns the identical handle from the
    cache, without resolving anything and whatever the import system would
    find by then, also after any number of further turns of the session. A
    different string that is not cached yet is resolved on its own and gets
    an entry of its own, which leaves the first entry as it is; the handle it
    gets may or may not be the one of a previous string. An empty
    backend-spec line always resolves [setuptools.build_meta:__legacy__]. *)
Theorem backend_resolution_cached
  (py py' : Interpreter) (raw : string) (backend : objref) (w w1 : World) :
  _parse_build_backend py raw w = (Return backend, w1) ->
  (forall w2, backend_cache w1 ⊆ backend_cache w2 ->
     _parse_build_backend py' raw w2 = (Return backend, w2))
  /\ (forall turns ending w2, main py' turns w1 = Some (ending, w2) ->
        _parse_build_backend py' raw w2 = (Return backend, w2))
  /\ (forall other w2, other <> raw -> backend_cache w2 !! other = None ->
        _parse_build_backend py' other w2
        = match resolve_backend py' other with
          | Return b => (Return b, set_backend_cache (<[other := b]> (backend_cache w2)) w2)
          | Raise e => (Raise e, w2)
          end
        /\ backend_cache (snd (_parse_build_backend py' other w2)) !! raw
           = backend_cache w2 !! raw)
  /\ (forall w0, stdin_readable w0 = true -> first_line (stdin w0) = EmptyString ->
        parse_build_backend py' w0
        = (match fst (_parse_build_backend py' "setuptools.build_meta:__legacy__"
                        (set_stdin (snd (readline_split (stdin w0))) w0)) with
           | Return b => Return (b, "setuptools.build_meta:__legacy__")
           | Raise e => Raise e
           end,
           snd (_parse_build_backend py' "setuptools.build_meta:__legacy__"
                  (set_stdin (snd (readline_split (stdin w0))) w0)))).
Proof.
  intros Hfirst. pose proof (resolved_is_stored _ _ _ _ _ Hfirst) as Hstored.
  assert (Hagain : forall w2, backend_cache w1 ⊆ backend_cache w2 ->
            _parse_build_backend py' raw w2 = (Return backend, w2)).
  { intros w2 Hsub. apply cached_hit.
    eapply lookup_weaken; [ exact Hstored | exact Hsub ]. }
  split; [ exact Hagain | split; [ | split ] ].
  - intros turns ending w2 Hmain. apply Hagain.
    exact (main_keeps_cache _ _ _ _ _ Hmain).
  - intros other w2 Hne Hmiss. split.
    + apply cached_miss, Hmiss.
    + apply resolution_keeps_other, Hne.
  - intros w0 Hr Hline. exact (parse_build_backend_empty_line py' w0 Hr Hline).
Qed.

Lemma backend_resolution_cached_witness :
  (forall w2,
     backend_cache
       (snd (_parse_build_backend Demo.py "setuptools.build_meta" (Demo.start EmptyString)))
       ⊆ backend_cache w2 ->
     _parse_build_backend Demo.py "setuptools.build_meta" w2 = (Return 2%positive, w2))
  /\ (forall turns ending w2,
        main Demo.py turns
          (snd (_parse_build_backend Demo.py "setuptools.build_meta" (Demo.start EmptyString)))
        = Some (ending, w2) ->
        _parse_build_backend Demo.py "setuptools.build_meta" w2 = (Return 2%positive, w2))
  /\ (forall other w2, other <> "setuptools.build_meta" ->
        backend_cache w2 !! other = None ->
        _parse_build_backend Demo.py other w2
        = match resolve_backend Demo.py other with
          | Return b => (Return b, set_backend_cache (<[other := b]> (backend_cache w2)) w2)
          | Raise e => (Raise e, w2)
          end
        /\ backend_cache (snd (_parse_build_backend Demo.py other w2))
             !! "setuptools.build_meta"
           = backend_cache w2 !! "setuptools.build_meta")
  /\ (forall w0, stdin_readable w0 = true -> first_line (stdin w0) = EmptyString ->
        parse_build_backend Demo.py w0
        = (match fst (_parse_build_backend Demo.py "setuptools.build_meta:__legacy__"
                        (set_stdin (snd (readline_split (stdin w0))) w0)) with
           | Return b => Return (b, "setuptools.build_meta:__legacy__")
           | Raise e => Raise e
           end,
           snd (_parse_build_backend Demo.py "setuptools.build_meta:__legacy__"
                  (set_stdin (snd (readline_split (stdin w0))) w0)))).
Proof.
  apply (backend_resolution_cached Demo.py Demo.py "setuptools.build_meta" 2%positive
           (Demo.start EmptyString)
           (snd (_parse_build_backend Demo.py "setuptools.build_meta"
                   (Demo.start EmptyString)))).
  vm_compute. reflexivity.
Defined.

Example empty_line_resolves_legacy :
  fst (parse_build_backend Demo.py (Demo.start (Demo.lines [EmptyString])))
  = Return (3%positive, "setuptools.build_meta:__legacy__").
Proof. vm_compute. reflexivity. Qed.

(** ** Scoped change of working directory *)

Lemma os_chdir_enters path w :
  path ∈ dirs (fs w) -> os_chdir path w = (Return tt, set_fs (set_cwd path (fs w)) w).
Proof. intros H. unfold os_chdir. rewrite decide_True by exact H. reflexivity. Qed.

Lemma os_chdir_refuses path w :
  path ∉ dirs (fs w) -> snd (os_chdir path w) = w.
Proof. intros H. unfold os_chdir. rewrite decide_False by exact H. reflexivity. Qed.

(** What [os.chdir] leaves behind: the directory entered, or the one the
    process was in. *)
Lemma os_chdir_cwd path w :
  cwd (fs (snd (os_chdir path w)))
  = if decide (path ∈ dirs (fs w)) then path else cwd (fs w).
Proof. unfold os_chdir. destruct (decide (path ∈ dirs (fs w))); reflexivity. Qed.

Lemma os_chdir_dirs path w : dirs (fs (snd (os_chdir path w))) = dirs (fs w).
Proof. unfold os_chdir. destruct (decide (path ∈ dirs (fs w))); reflexivity. Qed.

(** The cleanup of [try_finally] runs on the world its body leaves. *)
Lemma try_finally_world {A} (m : M A) (cleanup : M unit) w :
  snd (try_finally m cleanup w) = snd (cleanup (snd (m w))).
Proof.
  unfold try_finally. destruct (m w) as [r w'].
  cbn [snd]. destruct (cleanup w') as [[[] | e] w'']; reflexivity.
Qed.

(** The world a scope leaves: untouched when the scope is not entered (the
    path does not resolve, or the current directory cannot be read);
    otherwise what the restoring [os.chdir] makes of the world left by the
    change of directory and the body. *)
Lemma tmpchdir_world {A} (py : Interpreter) (path : string) (body : string -> M A) w :
  snd (tmpchdir py path body w)
  = match resolve py (fs w) path with
    | Raise _ => w
    | Return path' =>
        if decide (cwd (fs w) ∈ dirs (fs w))
        then snd (os_chdir (cwd (fs w)) (snd ((os_chdir path' ;;; body path') w)))
        else w
    end.
Proof.
  unfold tmpchdir, bind at 1.
  destruct (resolve py (fs w) path) as [path' | e]; [ | reflexivity ].
  unfold bind at 1, os_getcwd.
  destruct (decide (cwd (fs w) ∈ dirs (fs w))) as [Hcwd | Hcwd]; [ | reflexivity ].
  apply try_finally_world.
Qed.

(** C9, as the code has it: the restoring [os.chdir] can fail. When the
    body removes the directory the process started in, the [finally] clause
    raises and the process stays in the directory the scope entered. *)
Lemma removed_directory_is_not_restored :
  cwd (fs (Demo.start EmptyString)) = "/src"
  /\ cwd (fs (snd (tmpchdir Demo.py "/tmp" Demo.remove_start_directory
                     (Demo.start EmptyString))))
     = "/tmp"
  /\ fst (tmpchdir Demo.py "/tmp" Demo.remove_start_directory (Demo.start EmptyString))
     = Raise (Builtin "FileNotFoundError" "No such file or directory: '/src'").
Proof. repeat split; vm_compute; reflexivity. Qed.

(** C9, amended. On every way out of the scope (the body returns, the body
    raises, the change of directory itself fails, or the scope is not
    entered at all) the process is in its original working directory again
    when control returns to the caller, provided that directory can still be
    entered when the scope is left. *)
Theorem tmpchdir_restores {A} (py : Interpreter) (path : string)
  (body : string -> M A) (w : World) :
  cwd (fs w) ∈ dirs (fs (snd (tmpchdir py path body w))) ->
  cwd (fs (snd (tmpchdir py path body w))) = cwd (fs w).
Proof.
  rewrite tmpchdir_world.
  destruct (resolve py (fs w) path) as [path' | e]; [ | reflexivity ].
  destruct (decide (cwd (fs w) ∈ dirs (fs w))) as [Hcwd | Hcwd]; [ | reflexivity ].
  rewrite os_chdir_cwd, os_chdir_dirs.
  intros Hstill. rewrite decide_True by exact Hstill. reflexivity.
Qed.

Lemma tmpchdir_restores_witness :
  cwd (fs (snd (tmpchdir Demo.py "/tmp" Demo.failing_body (Demo.start EmptyString))))
  = cwd (fs (Demo.start EmptyString)).
Proof.
  apply (tmpchdir_restores Demo.py "/tmp" Demo.failing_body (Demo.start EmptyString)).
  vm_compute. set_solver.
Defined.

(** A body that leaves the directories alone, and a failing change of
    directory, both end in the original directory. *)
Lemma tmpchdir_restores_when_dirs_kept {A} (py : Interpreter) (path : string)
  (body : string -> M A) (w : World) :
  (forall p w', dirs (fs (snd (body p w'))) = dirs (fs w')) ->
  cwd (fs (snd (tmpchdir py path body w))) = cwd (fs w).
Proof.
  intros Hkept. rewrite tmpchdir_world.
  destruct (resolve py (fs w) path) as [path' | e]; [ | reflexivity ].
  destruct (decide (cwd (fs w) ∈ dirs (fs w))) as [Hcwd | Hcwd]; [ | reflexivity ].
  rewrite os_chdir_cwd.
  assert (Hdirs : dirs (fs (snd ((os_chdir path';;; body path') w))) = dirs (fs w)).
  { unfold bind. pose proof (os_chdir_dirs path' w) as Hd.
    destruct (os_chdir path' w) as [[[] | e] w']; cbn [snd] in Hd.
    - rewrite Hkept. exact Hd.
    - exact Hd. }
  rewrite Hdirs. rewrite decide_True by exact Hcwd. reflexivity.
Qed.

Example tmpchdir_failed_change :
  cwd (fs (snd (tmpchdir Demo.py "/missing" Demo.idle_body (Demo.start EmptyString))))
  = "/src"
  /\ fst (tmpchdir Demo.py "/missing" Demo.idle_body (Demo.start EmptyString))
     = Raise (Builtin "FileNotFoundError" "No such file or directory: '/missing'").
Proof. split; vm_compute; reflexivity. Qed.

(** ** Reports of errors *)

(** The message of [UnsupportedHook] cannot be built: it reads [self.name],
    and [__init__] has set [backend] and [hook] only. *)
Lemma UnsupportedHook_message_raises (py : Interpreter) (backend : objref) (hook : string) :
  exists text,
    str_exc py (UnsupportedHook backend hook) = Raise (Builtin "AttributeError" text).
Proof.
  cbn [str_exc]. unfold UnsupportedHook_message.
  destruct (dict_keys py backend) as [keys | ]; eexists; reflexivity.
Qed.

(** An [UnsupportedHook] caught by the loop is not reported: building the
    ERROR line raises, and that exception leaves [main] with nothing
    printed. *)
Lemma unsupported_hook_leaves_main (py : Interpreter) (backend : objref) (hook : string)
  (w w' : World) :
  main_try py w = (Raise (UnsupportedHook backend hook), w') ->
  exists text, main_turn py w = (Uncaught (Builtin "AttributeError" text), w').
Proof.
  intros Htry. unfold main_turn. rewrite Htry. cbn [is_HookdError].
  destruct (UnsupportedHook_message_raises py backend hook) as [text Htext].
  exists text. unfold send_error, bind, lift. rewrite Htext. reflexivity.
Qed.

(** C1, on the code. A request for prepare_metadata_for_build_wheel on a
    backend that does not expose that hook: [run_once] raises
    UnsupportedHook, but no ERROR line is printed for it; the message cannot
    be built (for any backend and any hook), an AttributeError leaves [main]
    and the process ends in failure. *)
Theorem unsupported_hook_is_not_reported :
  (forall (py : Interpreter) (backend : objref) (hook : string),
     exists text,
       str_exc py (UnsupportedHook backend hook) = Raise (Builtin "AttributeError" text))
  /\ fst (run_once Demo.py
            (Demo.start
               (Demo.lines ["setuptools.build_meta"; "prepare_metadata_for_build_wheel";
                            EmptyString; EmptyString])))
     = Raise (UnsupportedHook 2%positive "prepare_metadata_for_build_wheel")
  /\ exists w',
       main Demo.py 3
         (Demo.start
            (Demo.lines ["run"; "setuptools.build_meta"; "prepare_metadata_for_build_wheel";
                         EmptyString; EmptyString; "shutdown"]))
       = Some (Failure (Builtin "AttributeError"
                          "'UnsupportedHook' object has no attribute 'name'"), w')
       /\ stdout w'
          = [Line "READY"; Line "EXPECT action"; Line "EXPECT build-backend";
             Line "EXPECT hook-name"; Line "EXPECT metadata-directory";
             Line "EXPECT config-settings";
             DebugRequest "setuptools.build_meta" prepare_metadata_for_build_wheel
               [(metadata_directory, ANone); (config_settings, ANone)]].
Proof.
  split; [ exact UnsupportedHook_message_raises | split ].
  - vm_compute. reflexivity.
  - eexists. split; vm_compute; reflexivity.
Qed.

Lemma load_backend_not_malformed (py : Interpreter) raw module_name attribute name :
  load_backend py raw module_name attribute <> Raise (MalformedBackendName name).
Proof.
  unfold load_backend, result_bind.
  destruct (import_ py module_name) as [m | e] eqn:Himp.
  - destruct attribute as [a | ]; [ destruct (getattr py m a) | ]; discriminate.
  - destruct (import_raises_builtin _ _ _ Himp) as (c & t & ->).
    destruct (is_ImportError (Builtin c t)); [ | discriminate ].
    destruct (contains "." module_name); [ | discriminate ]. cbn [negb].
    destruct (rsplit1 "." module_name) as [[parent_name child_name] | ]; [ | discriminate ].
    destruct (import_ py parent_name) as [m | e] eqn:Hparent.
    + destruct (getattr py m child_name); [ | discriminate ].
      destruct attribute as [a | ]; [ destruct (getattr py m a) | ]; discriminate.
    + destruct (import_raises_builtin _ _ _ Hparent) as (c' & t' & ->).
      destruct (is_ImportError (Builtin c' t')); discriminate.
Qed.

(** The resolver raises MalformedBackendName exactly for a line with more
    than one colon, or with one colon and nothing after it. *)
Lemma malformed_exactly (py : Interpreter) (raw : string) :
  (exists name, resolve_backend py raw = Raise (MalformedBackendName name))
  <-> rejected_as_malformed raw = true.
Proof.
  unfold resolve_backend, rejected_as_malformed.
  destruct (split ":" raw) as [ | module_name [ | attribute [ | third more ] ] ].
  - split; [ reflexivity | intros _; eexists; reflexivity ].
  - split; [ intros [name H] | discriminate ].
    exfalso. exact (load_backend_not_malformed _ _ _ _ _ H).
  - destruct (is_empty attribute).
    + split; [ reflexivity | intros _; eexists; reflexivity ].
    + split; [ intros [name H] | discriminate ].
      exfalso. exact (load_backend_not_malformed _ _ _ _ _ H).
  - split; [ reflexivity | intros _; eexists; reflexivity ].
Qed.

(** A line that meets the invariant is never rejected as malformed. *)
Lemma wellformed_not_rejected (raw : string) :
  violates_BackendSpec raw = false -> rejected_as_malformed raw = false.
Proof.
  unfold violates_BackendSpec, rejected_as_malformed.
  destruct (split ":" raw) as [ | module_name [ | attribute [ | third more ] ] ];
    try discriminate; try reflexivity.
  intros H. apply orb_false_iff in H as [_ H]. exact H.
Qed.

(** C3, on the code. The line [:attr] has an empty module part, against the
    invariant, yet it is not rejected as malformed: the resolver goes on to
    import the module of the empty name. With the interpreter's import
    system that is a ValueError, which is no HookdError: the daemon reports
    FATAL and ends. *)
Theorem empty_module_is_not_malformed :
  violates_BackendSpec ":attr" = true
  /\ rejected_as_malformed ":attr" = false
  /\ (forall py : Interpreter,
        resolve_backend py ":attr" = load_backend py ":attr" EmptyString (Some "attr"))
  /\ resolve_backend Demo.py ":attr" = Raise (Builtin "ValueError" "Empty module name")
  /\ exists w',
       main Demo.py 3 (Demo.start (Demo.lines ["run"; ":attr"; "build_wheel"]))
       = Some (Failure (Builtin "ValueError" "Empty module name"), w')
       /\ stdout w'
          = [Line "READY"; Line "EXPECT action"; Line "EXPECT build-backend";
             Line "FATAL ValueError Empty module name"].
Proof.
  repeat split; try reflexivity.
  eexists. split; vm_compute; reflexivity.
Qed.

(** C4, on the code. When standard input is not readable, the loop calls
    [UnreadableInput] with no argument; the call itself raises a TypeError,
    and that is what the FATAL line carries and what ends the process. *)
Theorem unreadable_input_reports_TypeError
  (py : Interpreter) (input : string) (printed : list OutLine)
  (cache : gmap string objref) (files : FileSystem) (turns : nat) :
  main py (S turns)
    {| stdin_readable := false; stdin := input; stdout := printed;
       backend_cache := cache; fs := files |}
  = Some
      (Failure
         (Builtin "TypeError"
            "UnreadableInput.__init__() missing 1 required positional argument: 'reason'"),
       {| stdin_readable := false; stdin := input;
          stdout :=
            printed
            ++ Line "FATAL TypeError UnreadableInput.__init__() missing 1 required positional argument: 'reason'"
               :: (if DEBUG_ON py
                   then [Traceback
                           (Builtin "TypeError"
                              "UnreadableInput.__init__() missing 1 required positional argument: 'reason'")]
                   else []);
          backend_cache := cache; fs := files |}).
Proof.
  cbn [main]. unfold main_turn, main_try, bind at 1. cbn [stdin_readable negb].
  unfold bind at 1, bind at 1, lift. cbn [UnreadableInput_new is_HookdError].
  unfold send_fatal, bind, lift, print, ret. cbn [str_exc class_name_of].
  destruct (DEBUG_ON py); cbn; unfold set_stdout; cbn;
    rewrite <- ?app_assoc; reflexivity.
Qed.

(** ** Whole sessions on the small installation *)

(** One request, then shutdown: every EXPECT line comes before the OK line,
    in wire order. *)
Example session_get_requires :
  option_map (fun end_ => (fst end_, stdout (snd end_)))
    (main Demo.py 2
       (Demo.start
          (Demo.lines ["run"; "setuptools.build_meta"; "get_requires_for_build_wheel";
                       EmptyString; "shutdown"])))
  = Some (Success,
          [Line "READY"; Line "EXPECT action"; Line "EXPECT build-backend";
           Line "EXPECT hook-name"; Line "EXPECT config-settings";
           DebugRequest "setuptools.build_meta" get_requires_for_build_wheel
             [(config_settings, ANone)];
           DebugElapsed "parsed hook inputs";
           Line "OK ['wheel']"; DebugElapsed "ran hook";
           Line "READY"; Line "EXPECT action"; Line "SHUTDOWN"]).
Proof. vm_compute. reflexivity. Qed.

(** A recoverable error keeps the session going. *)
Example session_recovers_from_bad_hook_name :
  option_map (fun end_ => (fst end_, stdout (snd end_)))
    (main Demo.py 2
       (Demo.start (Demo.lines ["run"; "setuptools.build_meta"; "build"; "shutdown"])))
  = Some (Success,
          [Line "READY"; Line "EXPECT action"; Line "EXPECT build-backend";
           Line "EXPECT hook-name";
           Line "ERROR InvalidHookName The name 'build' is not valid hook. Expected one of: 'build_wheel', 'build_sdist', 'prepare_metadata_for_build_wheel', 'get_requires_for_build_wheel', 'get_requires_for_build_sdist'";
           Line "READY"; Line "EXPECT action"; Line "SHUTDOWN"]).
Proof. vm_compute. reflexivity. Qed.

(** The same request twice gives the same lines twice. *)
Example session_repeats :
  option_map (fun end_ => (fst end_, stdout (snd end_)))
    (main Demo.py 3
       (Demo.start
          (Demo.lines ["run"; "setuptools.build_meta"; "build_sdist"; "/tmp"; "{}";
                       "run"; "setuptools.build_meta"; "build_sdist"; "/tmp"; "{}";
                       "shutdown"])))
  = Some (Success,
          [Line "READY"; Line "EXPECT action"; Line "EXPECT build-backend";
           Line "EXPECT hook-name"; Line "EXPECT sdist-directory";
           Line "EXPECT config-settings";
           DebugRequest "setuptools.build_meta" build_sdist
             [(sdist_directory, APath (Path "/tmp")); (config_settings, AJson (JObject []))];
           DebugElapsed "parsed hook inputs";
           Line "OK pkg-1.0.tar.gz"; DebugElapsed "ran hook";
           Line "READY"; Line "EXPECT action"; Line "EXPECT build-backend";
           Line "EXPECT hook-name"; Line "EXPECT sdist-directory";
           Line "EXPECT config-settings";
           DebugRequest "setuptools.build_meta" build_sdist
             [(sdist_directory, APath (Path "/tmp")); (config_settings, AJson (JObject []))];
           DebugElapsed "parsed hook inputs";
           Line "OK pkg-1.0.tar.gz"; DebugElapsed "ran hook";
           Line "READY"; Line "EXPECT action"; Line "SHUTDOWN"]).
Proof. vm_compute. reflexivity. Qed.

(** * Further properties of the module *)

(** ** The vocabularies *)

Lemma HookEnum_lookup_name (hook : Hook) : HookEnum.lookup (HookEnum.name hook) = Some hook.
Proof. destruct hook; reflexivity. Qed.

Lemma HookEnum_lookup_sound (text : string) (hook : Hook) :
  HookEnum.lookup text = Some hook -> text = HookEnum.name hook.
Proof.
  unfold HookEnum.lookup, HookEnum.members. cbn [find].
  repeat match goal with
    | |- context [String.eqb ?a text] =>
        destruct (String.eqb_spec a text) as [<- | _];
          [ intros H; inversion H; reflexivity | ]
    end.
  discriminate.
Qed.

Lemma ActionEnum_lookup_sound (text : string) (action : Action) :
  ActionEnum.lookup text = Some action -> text = ActionEnum.name action.
Proof.
  unfold ActionEnum.lookup, ActionEnum.members. cbn [find].
  repeat match goal with
    | |- context [String.eqb ?a text] =>
        destruct (String.eqb_spec a text) as [<- | _];
          [ intros H; inversion H; reflexivity | ]
    end.
  discriminate.
Qed.

(** X1. [Hook.from_str] and the hook names are inverse to each other: the
    name of each of the five hooks decodes to that hook; a text decodes to a
    hook only if it is exactly that hook's name; any other text raises
    InvalidHookName carrying the text as it was given. Distinct hooks have
    distinct names. *)
Theorem hook_name_round_trip :
  (forall hook, HookFromStr.from_str (HookEnum.name hook) = Return hook)
  /\ (forall text hook,
        HookFromStr.from_str text = Return hook -> text = HookEnum.name hook)
  /\ (forall text e,
        HookFromStr.from_str text = Raise e ->
        e = InvalidHookName text /\ forall hook, text <> HookEnum.name hook)
  /\ (forall a b, HookEnum.name a = HookEnum.name b -> a = b).
Proof.
  split; [ | split; [ | split ] ].
  - intros hook. unfold HookFromStr.from_str. rewrite HookEnum_lookup_name. reflexivity.
  - intros text hook. unfold HookFromStr.from_str.
    destruct (HookEnum.lookup text) as [h | ] eqn:Hl; intros H; inversion H; subst.
    exact (HookEnum_lookup_sound _ _ Hl).
  - intros text e. unfold HookFromStr.from_str.
    destruct (HookEnum.lookup text) as [h | ] eqn:Hl; intros H; inversion H; subst.
    split; [ reflexivity | ]. intros hook ->.
    rewrite HookEnum_lookup_name in Hl. discriminate.
  - intros a b Hab. pose proof (HookEnum_lookup_name a) as Ha.
    rewrite Hab, HookEnum_lookup_name in Ha. inversion Ha. reflexivity.
Qed.

(** X2. [parse_action] reads one line and nothing else: the line [run] or
    [shutdown] (exactly, without its line feed) gives that action; any other
    line, the empty one included, raises InvalidAction carrying the line. *)
Theorem parse_action_decodes (w : World) (line rest : string) :
  stdin_readable w = true ->
  contains nl line = false ->
  stdin w = line +:+ String nl rest ->
  parse_action w
  = (if String.eqb line "run" then Return run
     else if String.eqb line "shutdown" then Return shutdown
     else Raise (InvalidAction line),
     set_stdin rest w).
Proof.
  intros Hr Hnl Hin. rewrite (parse_action_readable w Hr), Hin.
  rewrite (first_line_of _ _ Hnl), (readline_split_line _ _ Hnl). cbn [snd].
  f_equal. unfold ActionFromStr.from_str.
  destruct (ActionEnum.lookup line) as [action | ] eqn:Hl.
  - apply ActionEnum_lookup_sound in Hl. subst line. destruct action; reflexivity.
  - unfold ActionEnum.lookup, ActionEnum.members in Hl. cbn [find ActionEnum.name] in Hl.
    rewrite (String.eqb_sym line "run"), (String.eqb_sym line "shutdown").
    destruct (String.eqb "run" line); [ discriminate | ].
    destruct (String.eqb "shutdown" line); [ discriminate | reflexivity ].
Qed.

Lemma parse_action_decodes_witness :
  parse_action (Demo.start (Demo.lines ["stop"; "run"]))
  = (if String.eqb "stop" "run" then Return run
     else if String.eqb "stop" "shutdown" then Return shutdown
     else Raise (InvalidAction "stop"),
     set_stdin (Demo.lines ["run"]) (Demo.start (Demo.lines ["stop"; "run"]))).
Proof.
  apply (parse_action_decodes (Demo.start (Demo.lines ["stop"; "run"])) "stop"
           (Demo.lines ["run"])); reflexivity.
Defined.

(** ** The two tiers of errors at the loop boundary *)

Lemma reportable_message (py : Interpreter) (e : Exc) :
  reportable e = true -> exists text, str_exc py e = Return text.
Proof.
  induction e; cbn [reportable str_exc]; intros H; try discriminate;
    try (eexists; reflexivity).
  exact (IHe H).
Qed.


Lemma main_turn_reports (py : Interpreter) (w w' : World) (e : Exc) :
  main_try py w = (Raise e, w') ->
  is_HookdError e = true ->
  reportable e = true ->
  exists text,
    str_exc py e = Return text
    /\ main_turn py w
       = (if DEBUG_ON py then Done else Again,
          set_stdout (stdout w' ++ [Line ("ERROR " +:+ class_name_of e +:+ " " +:+ text)]) w').
Proof.
  intros Htry Hhookd Hreportable.
  destruct (reportable_message py e Hreportable) as [text Htext].
  exists text. split; [ exact Htext | ].
  unfold main_turn. rewrite Htry, Hhookd.
  unfold send_error, bind, lift, print. rewrite Htext.
  destruct (DEBUG_ON py); reflexivity.
Qed.

Lemma printable_append (a b : string) :
  printable (a +:+ b) = printable a && printable b.
Proof.
  induction a as [ | c a IH ]; [ reflexivity | ].
  simpl. rewrite IH. apply andb_assoc.
Qed.

Lemma printable_repr_char (q c : ascii) :
  q = dquote \/ q = squote -> is_printable c = true -> printable (repr_char q c) = true.
Proof.
  intros [-> | ->]; destruct c as [[] [] [] [] [] [] [] []];
    intros H; try discriminate H; vm_compute; reflexivity.
Qed.

Lemma printable_repr_body (q : ascii) (s : string) :
  q = dquote \/ q = squote -> printable s = true -> printable (repr_body q s) = true.
Proof.
  intros Hq. induction s as [ | c s IH ]; [ reflexivity | ].
  cbn [printable repr_body]. intros H. apply andb_true_iff in H as [Hc Hs].
  rewrite printable_append, (printable_repr_char q c Hq Hc), (IH Hs). reflexivity.
Qed.

Lemma printable_repr (s : string) : printable s = true -> printable (repr s) = true.
Proof.
  intros Hs. unfold repr.
  destruct (contains squote s && negb (contains dquote s)).
  - change (printable (str1 dquote +:+ repr_body dquote s +:+ str1 dquote) = true).
    rewrite !printable_append, printable_repr_body by (auto; left; reflexivity).
    reflexivity.
  - change (printable (str1 squote +:+ repr_body squote s +:+ str1 squote) = true).
    rewrite !printable_append, printable_repr_body by (auto; right; reflexivity).
    reflexivity.
Qed.

(** The message of an exception whose texts are printable is printable,
    and so is its class name. *)
Lemma printable_message (py : Interpreter) (e : Exc) (message : string) :
  printable_exc e = true -> str_exc py e = Return message -> printable message = true.
Proof.
  revert message. induction e; intros message Hp Htext; cbn [printable_exc] in Hp;
    cbn in Htext;
    match type of Htext with
    | Return _ = Return _ => inversion Htext; subst; clear Htext
    | _ => idtac
    end.
  - exact Hp.
  - rewrite printable_append, Hp. reflexivity.
  - rewrite printable_append, (printable_repr _ Hp). reflexivity.
  - apply andb_true_iff in Hp as [Hmodule Hattr].
    rewrite !printable_append, (printable_repr _ Hmodule), (printable_repr _ Hattr).
    reflexivity.
  - rewrite !printable_append, (printable_repr _ Hp). reflexivity.
  - rewrite !printable_append, (printable_repr _ Hp). reflexivity.
  - rewrite !printable_append, (printable_repr _ Hp). reflexivity.
  - unfold UnsupportedHook_message in Htext.
    destruct (dict_keys py backend); discriminate Htext.
  - rewrite !printable_append, (printable_repr _ Hp). destruct argument; reflexivity.
  - exact (IHe message Hp Htext).
  - apply andb_true_iff in Hp as [_ Ht]. exact Ht.
Qed.

Lemma printable_class_name (e : Exc) :
  printable_exc e = true -> printable (class_name_of e) = true.
Proof.
  destruct e; cbn [printable_exc class_name_of]; intros Hp; try reflexivity.
  apply andb_true_iff in Hp as [Hc _]. exact Hc.
Qed.

Lemma printable_report (py : Interpreter) (tag : string) (e : Exc) (text : string) :
  printable tag = true ->
  printable_exc e = true ->
  str_exc py e = Return text ->
  printable (tag +:+ class_name_of e +:+ " " +:+ text) = true.
Proof.
  intros Htag Hp Htext.
  rewrite !printable_append, Htag, (printable_class_name e Hp),
    (printable_message py e text Hp Htext).
  reflexivity.
Qed.

(** X3. Every HookdError raised in a turn of the loop, other than
    UnsupportedHook, is recoverable when its texts are printable ASCII: the
    turn makes exactly one more print, of one line of printable ASCII made
    of ERROR, the class name and the message; it keeps everything else as
    the failing step left it, and the loop goes on (or returns, in debug
    mode). *)
Theorem recoverable_error_is_reported (py : Interpreter) (w w' : World) (e : Exc) :
  main_try py w = (Raise e, w') ->
  is_HookdError e = true ->
  reportable e = true ->
  printable_exc e = true ->
  exists text,
    str_exc py e = Return text
    /\ printable ("ERROR " +:+ class_name_of e +:+ " " +:+ text) = true
    /\ main_turn py w
       = (if DEBUG_ON py then Done else Again,
          set_stdout (stdout w' ++ [Line ("ERROR " +:+ class_name_of e +:+ " " +:+ text)]) w').
Proof.
  intros Htry Hhookd Hreportable Hprintable.
  destruct (main_turn_reports py w w' e Htry Hhookd Hreportable) as (text & Htext & Hturn).
  exists text. split; [ exact Htext | split; [ | exact Hturn ] ].
  exact (printable_report py "ERROR " e text eq_refl Hprintable Htext).
Qed.

Lemma recoverable_error_is_reported_witness :
  exists text,
    str_exc Demo.py (InvalidHookName "build") = Return text
    /\ printable ("ERROR " +:+ class_name_of (InvalidHookName "build") +:+ " " +:+ text)
       = true
    /\ main_turn Demo.py (Demo.start (Demo.lines ["run"; "setuptools.build_meta"; "build"]))
       = (if DEBUG_ON Demo.py then Done else Again,
          set_stdout
            (stdout (snd (main_try Demo.py
                            (Demo.start (Demo.lines ["run"; "setuptools.build_meta"; "build"]))))
             ++ [Line ("ERROR " +:+ class_name_of (InvalidHookName "build") +:+ " " +:+ text)])
            (snd (main_try Demo.py
                    (Demo.start (Demo.lines ["run"; "setuptools.build_meta"; "build"]))))).
Proof.
  apply (recoverable_error_is_reported Demo.py
           (Demo.start (Demo.lines ["run"; "setuptools.build_meta"; "build"]))
           (snd (main_try Demo.py
                   (Demo.start (Demo.lines ["run"; "setuptools.build_meta"; "build"]))))
           (InvalidHookName "build")).
  - vm_compute. reflexivity.
  - reflexivity.
  - reflexivity.
  - reflexivity.
Defined.



(** X5. At the end of input the daemon does not stop. With debug mode off,
    once standard input is exhausted every turn reads the empty line,
    raises InvalidAction for it, reports it and loops: [main] is still
    running after any number of turns. *)
Theorem end_of_input_never_ends (py : Interpreter) (w : World) (turns : nat) :
  DEBUG_ON py = false ->
  stdin_readable w = true ->
  stdin w = EmptyString ->
  main py turns w = None.
Proof.
  intros Hdebug. revert w. induction turns as [ | n IH ]; intros w Hr Hin; [ reflexivity | ].
  cbn [main].
  assert (Htry : main_try py w
                 = (Raise (InvalidAction EmptyString),
                    set_stdin EmptyString
                      (set_stdout (stdout w ++ [Line "READY"; Line "EXPECT action"]) w))).
  { unfold main_try, bind at 1. rewrite Hr. cbn [negb].
    unfold bind at 1, ret at 1. unfold bind at 1, send_ready, print at 1.
    unfold bind at 1, send_expect, print at 1.
    unfold bind at 1. rewrite parse_action_readable by exact Hr.
    cbn [stdin set_stdout]. rewrite Hin. cbn.
    unfold set_stdout, set_stdin. cbn. rewrite <- !app_assoc. reflexivity. }
  destruct (main_turn_reports py w _ _ Htry eq_refl eq_refl)
    as (text & _ & Hturn).
  rewrite Hturn, Hdebug. apply IH; [ exact Hr | reflexivity ].
Qed.

Lemma end_of_input_never_ends_witness : main Demo.py 7 (Demo.start EmptyString) = None.
Proof.
  apply (end_of_input_never_ends Demo.py (Demo.start EmptyString) 7); reflexivity.
Defined.

(** ** The backend resolver *)

Lemma split_without_separator c s : contains c s = false -> split c s = [s].
Proof.
  induction s as [ | d s IH ]; intros H; [ reflexivity | ].
  apply contains_cons in H as [Hd Hs]. cbn [split]. rewrite Hd, (IH Hs). reflexivity.
Qed.

Lemma split_at_separator c before after :
  contains c before = false ->
  split c (before +:+ String c after) = before :: split c after.
Proof.
  induction before as [ | d s IH ]; intros H.
  - simpl. rewrite Ascii.eqb_refl. reflexivity.
  - apply contains_cons in H as [Hd Hs]. simpl. rewrite Hd, (IH Hs). reflexivity.
Qed.

Lemma rsplit1_contains c s parts : rsplit1 c s = Some parts -> contains c s = true.
Proof.
  revert parts. induction s as [ | d s IH ]; intros parts; [ discriminate | ].
  cbn [rsplit1 contains].
  destruct (rsplit1 c s) as [[before after] | ].
  - intros _. rewrite (IH _ eq_refl). apply orb_true_r.
  - rewrite (Ascii.eqb_sym c d). destruct (Ascii.eqb d c); [ reflexivity | discriminate ].
Qed.



(** X6. A failed resolution is not cached: when [_parse_build_backend]
    raises, the string was not in the cache, the whole process state is left
    as it was, and a later call with the same string resolves it afresh (and
    stores the handle if the import system can find it by then). *)
Theorem failed_resolution_is_not_cached
  (py : Interpreter) (raw : string) (w w1 : World) (e : Exc) :
  _parse_build_backend py raw w = (Raise e, w1) ->
  w1 = w
  /\ backend_cache w !! raw = None
  /\ resolve_backend py raw = Raise e
  /\ (forall py' : Interpreter,
        _parse_build_backend py' raw w1
        = match resolve_backend py' raw with
          | Return backend =>
              (Return backend,
               set_backend_cache (<[raw := backend]> (backend_cache w1)) w1)
          | Raise e' => (Raise e', w1)
          end).
Proof.
  unfold _parse_build_backend at 1.
  destruct (backend_cache w !! raw) as [b | ] eqn:Hc; [ discriminate | ].
  destruct (resolve_backend py raw) as [b | e0] eqn:Hres; intros H; inversion H; subst.
  repeat split; try reflexivity.
  intros py'. apply cached_miss, Hc.
Qed.

Lemma failed_resolution_is_not_cached_witness :
  Demo.start EmptyString = Demo.start EmptyString
  /\ backend_cache (Demo.start EmptyString) !! "flit_core" = None
  /\ resolve_backend Demo.py "flit_core" = Raise (MissingBackendModule "flit_core")
  /\ (forall py' : Interpreter,
        _parse_build_backend py' "flit_core" (Demo.start EmptyString)
        = match resolve_backend py' "flit_core" with
          | Return backend =>
              (Return backend,
               set_backend_cache
                 (<["flit_core" := backend]> (backend_cache (Demo.start EmptyString)))
                 (Demo.start EmptyString))
          | Raise e' => (Raise e', Demo.start EmptyString)
          end).
Proof.
  apply (failed_resolution_is_not_cached Demo.py "flit_core"
           (Demo.start EmptyString) (Demo.start EmptyString)
           (MissingBackendModule "flit_core")).
  vm_compute. reflexivity.
Defined.





Lemma contains_append c a b : contains c (a +:+ b) = contains c a || contains c b.
Proof.
  induction a as [ | d a IH ]; [ reflexivity | ].
  simpl. rewrite IH. apply orb_assoc.
Qed.



Example dotted_name_falls_back_to_attribute :
  resolve_backend flat_py "pkg.backend" = Return 21%positive
  /\ resolve_backend flat_py "pkg.nothing" = Return 20%positive
  /\ resolve_backend flat_py "pkg.other" = Raise (MissingBackendAttribute "pkg.other" "other")
  /\ resolve_backend Demo.py "setuptools.legacy"
     = Raise (MissingBackendAttribute "setuptools.legacy" "legacy")
  /\ resolve_backend Demo.py "missing.legacy" = Raise (MissingBackendModule "missing.legacy").
Proof. repeat split; vm_compute; reflexivity. Qed.

(** X9. A backend line [module:attribute] (one colon, a non-empty
    attribute) whose module imports resolves to that attribute of the
    module, unless the value of the attribute is None: then the module
    itself is the backend. When the module has no such attribute
    MissingBackendAttribute is raised, carrying the module name and, as the
    attribute, the whole line. *)
Theorem attribute_backend_spec
  (py : Interpreter) (module_name attribute : string) (m : objref) :
  contains ":" module_name = false ->
  contains ":" attribute = false ->
  is_empty attribute = false ->
  import_module py module_name = Imported m ->
  resolve_backend py (module_name +:+ String ":" attribute)
  = match getattr py m attribute with
    | Some backend => Return (if Pos.eqb backend (None_ py) then m else backend)
    | None =>
        Raise (MissingBackendAttribute module_name (module_name +:+ String ":" attribute))
    end.
Proof.
  intros Hmodule Hattribute Hnonempty Himp. unfold resolve_backend.
  rewrite (split_at_separator _ _ _ Hmodule), (split_without_separator _ _ Hattribute).
  rewrite Hnonempty. unfold load_backend, import_. rewrite Himp.
  cbn [result_bind]. destruct (getattr py m attribute); reflexivity.
Qed.

Lemma attribute_backend_spec_witness :
  resolve_backend flat_py ("pkg" +:+ String ":" "nothing")
  = match getattr flat_py 20%positive "nothing" with
    | Some backend =>
        Return (if Pos.eqb backend (None_ flat_py) then 20%positive else backend)
    | None => Raise (MissingBackendAttribute "pkg" ("pkg" +:+ String ":" "nothing"))
    end.
Proof.
  apply (attribute_backend_spec flat_py "pkg" "nothing" 20%positive); reflexivity.
Defined.

(** With a dotted module part that does not import, the attribute after
    the colon is looked up on the parent module, not on the object the
    dotted name stands for. *)
Example attribute_backend_examples :
  resolve_backend Demo.py "setuptools.build_meta:__legacy__" = Return 3%positive
  /\ resolve_backend Demo.py "setuptools.build_meta:shim"
     = Raise (MissingBackendAttribute "setuptools.build_meta" "setuptools.build_meta:shim")
  /\ resolve_backend flat_py "pkg:backend" = Return 21%positive
  /\ resolve_backend flat_py "pkg:nothing" = Return 20%positive
  /\ resolve_backend flat_py "pkg.backend:nothing" = Return 20%positive
  /\ resolve_backend flat_py "pkg.backend:backend" = Return 21%positive.
Proof. repeat split; vm_compute; reflexivity. Qed.

(** ** What a turn of the loop may change *)

Section TurnInvariant.
Variable py : Interpreter.
Variable R : World -> World -> Prop.
Hypothesis R_refl : forall w, R w w.
Hypothesis R_trans : forall a b c, R a b -> R b c -> R a c.
Hypothesis R_print : forall w l, R w (set_stdout (stdout w ++ [l]) w).
Hypothesis R_read : forall w, R w (set_stdin (snd (readline_split (stdin w))) w).
Hypothesis R_store :
  forall w raw backend, R w (set_backend_cache (<[raw := backend]> (backend_cache w)) w).
Hypothesis R_call :
  forall w hook args, R w (set_fs (snd (call py hook args (fs w))) w).

Lemma related_bind {A B} (m : M A) (k : A -> M B) :
  related R m -> (forall a, related R (k a)) -> related R (bind m k).
Proof.
  intros Hm Hk w. unfold bind. specialize (Hm w).
  destruct (m w) as [[a | e] w']; cbn [snd] in *.
  - eapply R_trans; [ exact Hm | apply Hk ].
  - exact Hm.
Qed.

Lemma related_ret {A} (a : A) : related R (ret a).
Proof. intros w. apply R_refl. Qed.

Lemma related_raise {A} (e : Exc) : related R (@raise A e).
Proof. intros w. apply R_refl. Qed.

Lemma related_lift {A} (r : result A) : related R (lift r).
Proof. intros w. apply R_refl. Qed.

Lemma related_print l : related R (print l).
Proof. intros w. apply R_print. Qed.

Lemma related_readline : related R readline.
Proof.
  intros w. unfold readline. destruct (stdin_readable w); [ | apply R_refl ].
  pose proof (R_read w) as H. destruct (readline_split (stdin w)). exact H.
Qed.

Lemma related_read_stripped : related R read_stripped.
Proof.
  unfold read_stripped. apply related_bind; [ apply related_readline | intros line ].
  apply related_ret.
Qed.

Ltac related_step :=
  first [ apply related_ret | apply related_raise | apply related_lift
        | apply related_print | apply related_read_stripped
        | apply related_bind; [ | intros ? ]
        | match goal with
          | |- related _ (if ?c then _ else _) => destruct c
          | |- related _ (match ?x with _ => _ end) => destruct x
          end ].

Lemma related_parse_hook_argument hook_arg : related R (parse_hook_argument py hook_arg).
Proof.
  unfold parse_hook_argument, parse_path, parse_optional_path, parse_config_settings.
  repeat related_step.
Qed.

Lemma related_for_each {A B} (f : A -> M B) (xs : list A) :
  (forall x, related R (f x)) -> related R (for_each f xs).
Proof.
  intros Hf. induction xs as [ | x xs IH ]; simpl.
  - apply related_ret.
  - apply related_bind; [ apply Hf | intros y ].
    apply related_bind; [ exact IH | intros ys ]. apply related_ret.
Qed.

Lemma related_parse_build_backend_cached raw : related R (_parse_build_backend py raw).
Proof.
  intros w. unfold _parse_build_backend.
  destruct (backend_cache w !! raw); [ apply R_refl | ].
  destruct (resolve_backend py raw); [ apply R_store | apply R_refl ].
Qed.

Lemma related_call_hook hook args : related R (call_hook py hook args).
Proof.
  intros w. unfold call_hook. pose proof (R_call w hook args) as H.
  destruct (call py hook args (fs w)) as [[text | c t] f]; cbn [snd] in H; [ exact H | ].
  destruct (is_termination (Builtin c t)); exact H.
Qed.

Lemma related_run_once : related R (run_once py).
Proof.
  unfold run_once, send_expect, send_ok, parse_hook_name, parse_build_backend, parse.
  apply related_bind; [ apply related_print | intros _ ].
  apply related_bind.
  { apply related_bind; [ apply related_read_stripped | intros raw ].
    apply related_bind; [ apply related_parse_build_backend_cached | intros b ].
    apply related_ret. }
  intros resolved.
  apply related_bind; [ apply related_print | intros _ ].
  apply related_bind; [ repeat related_step | intros hook_name ].
  destruct (registry_get HookArguments hook_name) as [schema | ];
    [ | apply related_raise ].
  apply related_bind.
  { apply related_for_each. intros argument.
    apply related_bind; [ apply related_print | intros _ ].
    apply related_parse_hook_argument. }
  intros args.
  apply related_bind; [ apply related_print | intros _ ].
  apply related_bind; [ repeat related_step | intros hook ].
  apply related_bind; [ apply related_print | intros _ ].
  apply related_bind; [ apply related_call_hook | intros text ].
  apply related_print.
Qed.

Lemma related_main_try : related R (main_try py).
Proof.
  unfold main_try, send_ready, send_expect, send_shutdown, parse_action.
  apply related_bind; [ intros w; apply R_refl | intros readable ].
  apply related_bind; [ repeat related_step | intros _ ].
  apply related_bind; [ apply related_print | intros _ ].
  apply related_bind; [ apply related_print | intros _ ].
  apply related_bind; [ repeat related_step | intros action ].
  destruct (ActionEnum.eqb action shutdown).
  - repeat related_step.
  - apply related_bind; [ apply related_run_once | intros _ ].
    repeat related_step.
Qed.

(** The end of a turn, from wherever the [try] block is known to have got. *)
Lemma related_turn_from w0 w :
  R w0 (snd (main_try py w)) -> R w0 (snd (main_turn py w)).
Proof.
  unfold main_turn. intros Htry.
  destruct (main_try py w) as [[[ | ] | exc] w']; cbn [snd] in Htry.
  - exact Htry.
  - destruct (DEBUG_ON py); exact Htry.
  - destruct (is_HookdError exc).
    + assert (Hs : related R (send_error py exc))
        by (unfold send_error; repeat related_step).
      specialize (Hs w').
      destruct (send_error py exc w') as [[[] | e] w'']; cbn [snd] in Hs;
        [ destruct (DEBUG_ON py) | ]; cbn [snd]; eapply R_trans; eauto.
    + assert (Hs : related R (send_fatal py exc))
        by (unfold send_fatal; repeat related_step).
      specialize (Hs w').
      destruct (send_fatal py exc w') as [[[] | e] w'']; cbn [snd] in *;
        eapply R_trans; eauto.
Qed.

Lemma related_main_turn w : R w (snd (main_turn py w)).
Proof. apply related_turn_from, related_main_try. Qed.

(** The [try] block after its first two prints. *)
Lemma related_after_ready w :
  stdin_readable w = true ->
  R (set_stdout (stdout w ++ [Line "READY"; Line "EXPECT action"]) w)
    (snd (main_try py w)).
Proof.
  intros Hr.
  set (tail := (action <- parse_action ;;
                if ActionEnum.eqb action shutdown then send_shutdown ;;; ret true
                else run_once py ;;; print (DebugElapsed "ran hook") ;;; ret false)).
  assert (Htail : related R tail).
  { unfold tail, parse_action, send_shutdown.
    apply related_bind; [ repeat related_step | intros action ].
    destruct (ActionEnum.eqb action shutdown).
    - repeat related_step.
    - apply related_bind; [ apply related_run_once | intros _ ].
      repeat related_step. }
  assert (Heq : main_try py w
                = tail (set_stdout (stdout w ++ [Line "READY"; Line "EXPECT action"]) w)).
  { unfold main_try, bind at 1. rewrite Hr. cbn [negb].
    unfold bind at 1, ret at 1. unfold bind at 1, send_ready, print at 1.
    unfold bind at 1, send_expect, print at 1. cbn [replace String.append].
    unfold set_stdout at 1 2. cbn [stdout stdin_readable stdin backend_cache fs].
    rewrite <- app_assoc. reflexivity. }
  rewrite Heq. apply Htail.
Qed.

Lemma related_main turns w ending w' :
  main py turns w = Some (ending, w') -> R w w'.
Proof.
  revert w. induction turns as [ | n IH ]; intros w; [ discriminate | ].
  cbn [main]. pose proof (related_main_turn w) as Hturn.
  destruct (main_turn py w) as [[ | | e] w1]; cbn [snd] in Hturn; intros H.
  - eapply R_trans; [ exact Hturn | exact (IH _ H) ].
  - inversion H; subst. exact Hturn.
  - inversion H; subst. exact Hturn.
Qed.

End TurnInvariant.

(** X11. Every turn of the loop on readable input starts by printing READY
    and then EXPECT action, before it reads or prints anything else,
    whatever the turn then does. *)
Theorem turn_starts_with_ready (py : Interpreter) (w : World) :
  stdin_readable w = true ->
  exists more,
    stdout (snd (main_turn py w))
    = stdout w ++ Line "READY" :: Line "EXPECT action" :: more.
Proof.
  intros Hr.
  pose (grows := fun a b : World => exists more, stdout b = stdout a ++ more).
  assert (H : grows (set_stdout (stdout w ++ [Line "READY"; Line "EXPECT action"]) w)
                (snd (main_turn py w))).
  { apply (related_turn_from py grows).
    - intros a. exists []. symmetry. apply app_nil_r.
    - intros a b c [m1 H1] [m2 H2]. exists (m1 ++ m2).
      rewrite H2, H1. symmetry. apply app_assoc.
    - intros a l. exists [l]. reflexivity.
    - apply (related_after_ready py grows).
      + intros a. exists []. symmetry. apply app_nil_r.
      + intros a b c [m1 H1] [m2 H2]. exists (m1 ++ m2).
        rewrite H2, H1. symmetry. apply app_assoc.
      + intros a l. exists [l]. reflexivity.
      + intros a. exists []. symmetry. apply app_nil_r.
      + intros a raw backend. exists []. symmetry. apply app_nil_r.
      + intros a hook args. exists []. symmetry. apply app_nil_r.
      + exact Hr. }
  destruct H as [more Hmore]. exists more. rewrite Hmore. cbn [stdout set_stdout].
  rewrite <- app_assoc. reflexivity.
Qed.

Lemma turn_starts_with_ready_witness :
  exists more,
    stdout (snd (main_turn Demo.py (Demo.start (Demo.lines ["run"; "nowhere"]))))
    = stdout (Demo.start (Demo.lines ["run"; "nowhere"]))
      ++ Line "READY" :: Line "EXPECT action" :: more.
Proof.
  apply (turn_starts_with_ready Demo.py (Demo.start (Demo.lines ["run"; "nowhere"]))).
  reflexivity.
Defined.

(** X12. Debug mode runs one turn. With DAEMON_DEBUG set, [main] returns
    or fails at the end of its first turn whatever that turn did, so any
    positive number of allowed turns gives the result of one. *)
Theorem debug_mode_runs_one_turn (py : Interpreter) (w : World) (turns : nat) :
  DEBUG_ON py = true ->
  main py (S turns) w = main py 1 w
  /\ exists ending, main py 1 w = Some (ending, snd (main_turn py w)).
Proof.
  intros Hdebug. cbn [main].
  assert (Hnot : fst (main_turn py w) <> Again).
  { unfold main_turn. rewrite Hdebug.
    destruct (main_try py w) as [[[ | ] | exc] w']; try discriminate.
    destruct (is_HookdError exc).
    - destruct (send_error py exc w') as [[[] | e] w'']; discriminate.
    - destruct (send_fatal py exc w') as [[[] | e] w'']; discriminate. }
  destruct (main_turn py w) as [[ | | e] w1]; cbn [fst snd] in *.
  - contradiction.
  - split; [ reflexivity | eexists; reflexivity ].
  - split; [ reflexivity | eexists; reflexivity ].
Qed.

Lemma debug_mode_runs_one_turn_witness :
  main debug_py 4 (Demo.start (Demo.lines ["run"; "nowhere"; "shutdown"]))
  = main debug_py 1 (Demo.start (Demo.lines ["run"; "nowhere"; "shutdown"]))
  /\ exists ending,
       main debug_py 1 (Demo.start (Demo.lines ["run"; "nowhere"; "shutdown"]))
       = Some (ending,
               snd (main_turn debug_py
                      (Demo.start (Demo.lines ["run"; "nowhere"; "shutdown"])))).
Proof.
  apply (debug_mode_runs_one_turn debug_py
           (Demo.start (Demo.lines ["run"; "nowhere"; "shutdown"])) 3).
  reflexivity.
Defined.

(** ** Decoding the arguments of a hook *)

Lemma parse_hook_argument_outcome (py : Interpreter) (hook_arg : HookArgument) (w : World) :
  stdin_readable w = true ->
  snd (parse_hook_argument py hook_arg w) = set_stdin (snd (readline_split (stdin w))) w
  /\ (forall e, fst (parse_hook_argument py hook_arg w) = Raise e ->
        config_settings_error e).
Proof.
  intros Hr.
  destruct hook_arg; unfold parse_hook_argument;
    repeat match goal with
      | |- context [ArgEnum.eqb ?a ?b] =>
          let v := eval vm_compute in (ArgEnum.eqb a b) in
          change (ArgEnum.eqb a b) with v
      end; cbv iota;
    unfold parse_path, parse_optional_path, parse_config_settings, bind;
    rewrite (read_stripped_readable w Hr).
  - split; [ reflexivity | discriminate ].
  - destruct (is_empty (first_line (stdin w))); [ split; [ reflexivity | discriminate ] | ].
    pose proof (JsonFacts.loads_errors (recursion_headroom py) (int_max_str_digits py)
                  (first_line (stdin w))) as Hlimits.
    destruct (JsonDecoder.loads _ _ (first_line (stdin w))) as [v | | c t].
    + split; [ reflexivity | discriminate ].
    + split; [ reflexivity | ]. intros e H. inversion H. left. eauto.
    + split; [ reflexivity | ]. intros e H. inversion H; subst.
      destruct (Hlimits c t eq_refl) as [[-> _] | [-> _]]; [ right; left | right; right ];
        eauto.
  - destruct (is_empty (first_line (stdin w))); split; try reflexivity; discriminate.
  - split; [ reflexivity | discriminate ].
Qed.

Lemma parse_outcome (py : Interpreter) (argument : HookArgument) (w : World) :
  stdin_readable w = true ->
  snd (parse py argument w)
  = set_stdin (snd (readline_split (stdin w)))
      (set_stdout (stdout w ++ [expect_line argument]) w)
  /\ (forall e, fst (parse py argument w) = Raise e -> config_settings_error e).
Proof.
  intros Hr. unfold parse, bind, send_expect, print.
  exact (parse_hook_argument_outcome py argument
           (set_stdout (stdout w ++ [expect_line argument]) w) Hr).
Qed.

Ltac split_ands := repeat match goal with |- _ /\ _ => split end.

Lemma for_each_parse_outcome (py : Interpreter) (schema : list HookArgument) :
  forall w r w',
  stdin_readable w = true ->
  for_each (parse py) schema w = (r, w') ->
  exists k,
    k <= length schema
    /\ stdout w' = stdout w ++ map expect_line (take k schema)
    /\ stdin w' = skip_lines k (stdin w)
    /\ backend_cache w' = backend_cache w
    /\ fs w' = fs w
    /\ (forall args, r = Return args -> k = length schema /\ length args = length schema)
    /\ (forall e, r = Raise e -> config_settings_error e).
Proof.
  induction schema as [ | argument schema IH ]; intros w r w' Hr Hrun.
  - inversion Hrun; subst. exists 0. cbn. rewrite app_nil_r.
    split_ands; try reflexivity.
    + intros args H. inversion H. split; reflexivity.
    + discriminate.
  - cbn [for_each] in Hrun. unfold bind at 1 in Hrun.
    destruct (parse_outcome py argument w Hr) as [Hworld Herror].
    destruct (parse py argument w) as [[value | e] w1]; cbn [fst snd] in *.
    + assert (Hr1 : stdin_readable w1 = true) by (rewrite Hworld; exact Hr).
      unfold bind in Hrun.
      destruct (for_each (parse py) schema w1) as [r2 w2] eqn:Hrest.
      destruct (IH w1 r2 w2 Hr1 Hrest) as (k & Hk & Hout & Hin & Hcache & Hfs & Hok & Herr).
      exists (S k).
      assert (Hw : w' = w2) by (destruct r2; inversion Hrun; reflexivity).
      subst w'. rewrite Hout, Hin, Hcache, Hfs, Hworld. cbn. rewrite <- app_assoc.
      split_ands; try reflexivity; try lia.
      * intros args H. subst r. destruct r2 as [values | e2]; inversion Hrun; subst.
        destruct (Hok values eq_refl) as [-> Hlen]. cbn. rewrite Hlen. split; reflexivity.
      * intros e H. subst r. destruct r2 as [values | e2]; inversion Hrun; subst.
        apply Herr. reflexivity.
    + inversion Hrun; subst. exists 1. cbn.
      split_ands; try reflexivity; try lia; [ discriminate | ].
      intros e0 H. inversion H; subst. apply Herror. reflexivity.
Qed.

(** X13. The arguments of a hook are asked for one at a time, in the order
    of the schema. On readable input, decoding a schema prints one EXPECT
    line per argument it gets to (the argument's name with hyphens) and
    nothing else, and reads exactly one input line after each; it touches
    neither the backend cache nor the working directory. When it succeeds
    every argument of the schema was asked for and decoded; when it fails,
    the failure comes from a config_settings line: a MalformedHookArgument
    for config_settings, or the RecursionError or ValueError that
    [json.loads] raises at a limit of the interpreter. *)
Theorem arguments_are_asked_in_order
  (py : Interpreter) (schema : list HookArgument) (w : World) :
  stdin_readable w = true ->
  exists k,
    k <= length schema
    /\ stdout (snd (for_each (parse py) schema w))
       = stdout w ++ map expect_line (take k schema)
    /\ stdin (snd (for_each (parse py) schema w)) = skip_lines k (stdin w)
    /\ backend_cache (snd (for_each (parse py) schema w)) = backend_cache w
    /\ fs (snd (for_each (parse py) schema w)) = fs w
    /\ (forall args, fst (for_each (parse py) schema w) = Return args ->
          k = length schema /\ length args = length schema)
    /\ (forall e, fst (for_each (parse py) schema w) = Raise e ->
          (exists raw, e = MalformedHookArgument raw config_settings)
          \/ (exists text, e = Builtin "RecursionError" text)
          \/ (exists text, e = Builtin "ValueError" text)).
Proof.
  intros Hr. destruct (for_each (parse py) schema w) as [r w'] eqn:Hrun.
  exact (for_each_parse_outcome py schema w r w' Hr Hrun).
Qed.

Lemma arguments_are_asked_in_order_witness :
  exists k,
    k <= length [wheel_directory; config_settings; metadata_directory]
    /\ stdout (snd (for_each (parse Demo.py)
                      [wheel_directory; config_settings; metadata_directory]
                      (Demo.start (Demo.lines ["/tmp"; "{bad"; "/src"]))))
       = stdout (Demo.start (Demo.lines ["/tmp"; "{bad"; "/src"]))
         ++ map expect_line (take k [wheel_directory; config_settings; metadata_directory])
    /\ stdin (snd (for_each (parse Demo.py)
                     [wheel_directory; config_settings; metadata_directory]
                     (Demo.start (Demo.lines ["/tmp"; "{bad"; "/src"]))))
       = skip_lines k (stdin (Demo.start (Demo.lines ["/tmp"; "{bad"; "/src"])))
    /\ backend_cache
         (snd (for_each (parse Demo.py)
                 [wheel_directory; config_settings; metadata_directory]
                 (Demo.start (Demo.lines ["/tmp"; "{bad"; "/src"]))))
       = backend_cache (Demo.start (Demo.lines ["/tmp"; "{bad"; "/src"]))
    /\ fs (snd (for_each (parse Demo.py)
                  [wheel_directory; config_settings; metadata_directory]
                  (Demo.start (Demo.lines ["/tmp"; "{bad"; "/src"]))))
       = fs (Demo.start (Demo.lines ["/tmp"; "{bad"; "/src"]))
    /\ (forall args,
          fst (for_each (parse Demo.py)
                 [wheel_directory; config_settings; metadata_directory]
                 (Demo.start (Demo.lines ["/tmp"; "{bad"; "/src"])))
          = Return args ->
          k = length [wheel_directory; config_settings; metadata_directory]
          /\ length args = length [wheel_directory; config_settings; metadata_directory])
    /\ (forall e,
          fst (for_each (parse Demo.py)
                 [wheel_directory; config_settings; metadata_directory]
                 (Demo.start (Demo.lines ["/tmp"; "{bad"; "/src"])))
          = Raise e ->
          (exists raw, e = MalformedHookArgument raw config_settings)
          \/ (exists text, e = Builtin "RecursionError" text)
          \/ (exists text, e = Builtin "ValueError" text)).
Proof.
  apply (arguments_are_asked_in_order Demo.py
           [wheel_directory; config_settings; metadata_directory]
           (Demo.start (Demo.lines ["/tmp"; "{bad"; "/src"]))).
  reflexivity.
Defined.

Example arguments_stop_at_the_malformed_one :
  stdout (snd (for_each (parse Demo.py)
                 [wheel_directory; config_settings; metadata_directory]
                 (Demo.start (Demo.lines ["/tmp"; "{bad"; "/src"]))))
  = [Line "EXPECT wheel-directory"; Line "EXPECT config-settings"]
  /\ stdin (snd (for_each (parse Demo.py)
                   [wheel_directory; config_settings; metadata_directory]
                   (Demo.start (Demo.lines ["/tmp"; "{bad"; "/src"]))))
     = Demo.lines ["/src"].
Proof. split; vm_compute; reflexivity. Qed.

(** ** The scope of [tmpchdir] *)

Lemma set_cwd_same (w : World) : set_fs (set_cwd (cwd (fs w)) (fs w)) w = w.
Proof. destruct w as [r i o c [d ds]]. reflexivity. Qed.

(** X14. [tmpchdir] is transparent for its body. When the resolved path
    and the current directory can both be entered, the body runs with the
    resolved path as its argument and as the working directory; what the
    body returns or raises is what the scope returns or raises; and the
    scope leaves the world as the body left it, with the working directory
    set back to the original one (the original directory being still there
    at that point). *)
Theorem tmpchdir_runs_body_inside {A} (py : Interpreter) (path path' : string)
  (body : string -> M A) (w : World) :
  resolve py (fs w) path = Return path' ->
  cwd (fs w) ∈ dirs (fs w) ->
  path' ∈ dirs (fs w) ->
  cwd (fs w) ∈ dirs (fs (snd (body path' (set_fs (set_cwd path' (fs w)) w)))) ->
  tmpchdir py path body w
  = (fst (body path' (set_fs (set_cwd path' (fs w)) w)),
     set_fs
       (set_cwd (cwd (fs w)) (fs (snd (body path' (set_fs (set_cwd path' (fs w)) w)))))
       (snd (body path' (set_fs (set_cwd path' (fs w)) w)))).
Proof.
  intros Hresolve Hcwd Hpath Hstill.
  unfold tmpchdir, bind at 1. rewrite Hresolve.
  unfold bind at 1, os_getcwd. rewrite decide_True by exact Hcwd.
  unfold try_finally, bind. rewrite (os_chdir_enters path' w Hpath).
  destruct (body path' (set_fs (set_cwd path' (fs w)) w)) as [r w2]; cbn [fst snd] in *.
  rewrite (os_chdir_enters _ w2 Hstill). reflexivity.
Qed.

Lemma tmpchdir_runs_body_inside_witness :
  tmpchdir Demo.py "/tmp" Demo.failing_body (Demo.start EmptyString)
  = (fst (Demo.failing_body "/tmp"
            (set_fs (set_cwd "/tmp" (fs (Demo.start EmptyString))) (Demo.start EmptyString))),
     set_fs
       (set_cwd (cwd (fs (Demo.start EmptyString)))
          (fs (snd (Demo.failing_body "/tmp"
                      (set_fs (set_cwd "/tmp" (fs (Demo.start EmptyString)))
                         (Demo.start EmptyString))))))
       (snd (Demo.failing_body "/tmp"
               (set_fs (set_cwd "/tmp" (fs (Demo.start EmptyString)))
                  (Demo.start EmptyString))))).
Proof.
  apply (tmpchdir_runs_body_inside Demo.py "/tmp" "/tmp" Demo.failing_body
           (Demo.start EmptyString)).
  - reflexivity.
  - vm_compute. set_solver.
  - vm_compute. set_solver.
  - vm_compute. set_solver.
Defined.

(** X15. [tmpchdir] on a directory that cannot be entered: the body is not
    run at all, the scope raises (the error is the one of the failed
    [os.chdir]), and the process is left exactly as it was, in its original
    directory. *)
Theorem tmpchdir_refused {A} (py : Interpreter) (path path' : string)
  (body : string -> M A) (w : World) :
  resolve py (fs w) path = Return path' ->
  cwd (fs w) ∈ dirs (fs w) ->
  path' ∉ dirs (fs w) ->
  exists e,
    tmpchdir py path body w = (Raise e, w)
    /\ os_chdir path' w = (Raise e, w).
Proof.
  intros Hresolve Hcwd Hpath.
  unfold tmpchdir, bind at 1. rewrite Hresolve.
  unfold bind at 1, os_getcwd. rewrite decide_True by exact Hcwd.
  unfold try_finally, bind. unfold os_chdir at 1 3. rewrite decide_False by exact Hpath.
  rewrite (os_chdir_enters _ w Hcwd), set_cwd_same. eexists. split; reflexivity.
Qed.

Lemma tmpchdir_refused_witness :
  exists e,
    tmpchdir Demo.py "/missing" Demo.remove_start_directory (Demo.start EmptyString)
    = (Raise e, Demo.start EmptyString)
    /\ os_chdir "/missing" (Demo.start EmptyString) = (Raise e, Demo.start EmptyString).
Proof.
  apply (tmpchdir_refused Demo.py "/missing" "/missing" Demo.remove_start_directory
           (Demo.start EmptyString)).
  - reflexivity.
  - vm_compute. set_solver.
  - vm_compute. set_solver.
Defined.

(** ** The hook call *)



(** ** The working directory over a session *)

Lemma demo_hooks_keep_directory (hook : objref) (args : list ArgValue) (f : FileSystem) :
  snd (call Demo.py hook args f) = f.
Proof.
  cbn [call Demo.py]. unfold Demo.run_hook.
  repeat match goal with
    | |- context [match ?x with _ => _ end] => destruct x
    end; reflexivity.
Qed.

(** X17. The daemon itself never changes the working directory nor the
    directories: whatever the session does (decoding, resolving backends,
    reporting errors), if the hooks it calls leave the file system as they
    found it then so does the whole session. *)
Theorem session_keeps_working_directory
  (py : Interpreter) (turns : nat) (w w' : World) (ending : Ending) :
  (forall hook args f, snd (call py hook args f) = f) ->
  main py turns w = Some (ending, w') ->
  fs w' = fs w.
Proof.
  intros Hhooks Hmain.
  apply (related_main py (fun a b => fs b = fs a)) with (turns := turns) (ending := ending);
    try exact Hmain; try reflexivity.
  - intros a b c Hab Hbc. congruence.
  - intros a hook args. cbn. apply Hhooks.
Qed.

Lemma session_keeps_working_directory_witness :
  fs (match main Demo.py 2
              (Demo.start (Demo.lines ["run"; "setuptools.build_meta"; "build_sdist";
                                       "/tmp"; "{}"; "shutdown"])) with
      | Some (_, w') => w'
      | None => Demo.start EmptyString
      end)
  = fs (Demo.start (Demo.lines ["run"; "setuptools.build_meta"; "build_sdist";
                                "/tmp"; "{}"; "shutdown"])).
Proof.
  apply (session_keeps_working_directory Demo.py 2
           (Demo.start (Demo.lines ["run"; "setuptools.build_meta"; "build_sdist";
                                    "/tmp"; "{}"; "shutdown"]))
           _ Success).
  - exact demo_hooks_keep_directory.
  - vm_compute. reflexivity.
Defined.

(** A hook that changes directory and fails leaves the daemon there. *)
Example failing_hook_moves_the_daemon :
  option_map (fun end_ => (fst end_, cwd (fs (snd end_))))
    (main wandering_py 1
       (Demo.start (Demo.lines ["run"; "setuptools.build_meta"; "build_sdist"; "/tmp";
                                EmptyString])))
  = Some (Failure (Builtin "KeyboardInterrupt" EmptyString), "/tmp").
Proof. vm_compute. reflexivity. Qed.

(** ** ERROR lines and the line protocol *)

Lemma repr_char_one_line (q c : ascii) :
  q = dquote \/ q = squote -> contains nl (repr_char q c) = false.
Proof.
  intros [-> | ->]; destruct c as [[] [] [] [] [] [] [] []]; vm_compute; reflexivity.
Qed.

Lemma repr_body_one_line (q : ascii) (s : string) :
  q = dquote \/ q = squote -> contains nl (repr_body q s) = false.
Proof.
  intros Hq. induction s as [ | c s IH ]; [ reflexivity | ].
  cbn [repr_body]. rewrite contains_append, (repr_char_one_line q c Hq), IH. reflexivity.
Qed.

Lemma repr_one_line (s : string) : contains nl (repr s) = false.
Proof.
  unfold repr.
  destruct (contains squote s && negb (contains dquote s)).
  - change (contains nl (str1 dquote +:+ repr_body dquote s +:+ str1 dquote) = false).
    rewrite !contains_append, repr_body_one_line by (left; reflexivity). reflexivity.
  - change (contains nl (str1 squote +:+ repr_body squote s +:+ str1 squote) = false).
    rewrite !contains_append, repr_body_one_line by (right; reflexivity). reflexivity.
Qed.

(** X18. The ERROR line of every recoverable error except HookRuntimeError
    is a single line: whatever text the error carries (a line of input, a
    module name), its message quotes it with [repr], which escapes line
    feeds, so the line printed holds no line feed. (The message of
    HookRuntimeError is the hook's own text and is printed as it is.) *)
Theorem error_line_is_one_line (py : Interpreter) (e : Exc) (text : string) :
  is_HookdError e = true ->
  (forall exc, e <> HookRuntimeError exc) ->
  str_exc py e = Return text ->
  contains nl ("ERROR " +:+ class_name_of e +:+ " " +:+ text) = false.
Proof.
  intros Hhookd Hruntime Htext.
  destruct e; try discriminate Hhookd; cbn in Htext.
  - inversion Htext; subst. cbn [class_name_of].
    rewrite !contains_append, repr_one_line. reflexivity.
  - inversion Htext; subst. cbn [class_name_of].
    rewrite !contains_append, !repr_one_line. reflexivity.
  - inversion Htext; subst. cbn [class_name_of].
    rewrite !contains_append, repr_one_line. reflexivity.
  - inversion Htext; subst. cbn [class_name_of].
    rewrite !contains_append, repr_one_line. reflexivity.
  - inversion Htext; subst. cbn [class_name_of].
    rewrite !contains_append, repr_one_line. reflexivity.
  - unfold UnsupportedHook_message in Htext.
    destruct (dict_keys py backend); discriminate Htext.
  - inversion Htext; subst. cbn [class_name_of].
    rewrite !contains_append, !repr_one_line. destruct argument; reflexivity.
  - exfalso. exact (Hruntime e eq_refl).
Qed.

Lemma error_line_is_one_line_witness :
  contains nl
    ("ERROR " +:+ class_name_of (InvalidAction (String "a" (String nl "b"))) +:+ " "
     +:+ "Received invalid action 'a\nb'. Expected one of: 'run', 'shutdown'")
  = false.
Proof.
  apply (error_line_is_one_line Demo.py (InvalidAction (String "a" (String nl "b")))).
  - reflexivity.
  - intros exc H. discriminate H.
  - reflexivity.
Defined.

(** The text of a failing hook is printed as it is, line feeds included. *)
Example hook_error_line_can_span_lines :
  str_exc Demo.py (HookRuntimeError (Builtin "RuntimeError" (String "a" (String nl "b"))))
  = Return (String "a" (String nl "b"))
  /\ contains nl ("ERROR HookRuntimeError " +:+ String "a" (String nl "b")) = true.
Proof. split; reflexivity. Qed.
